(** * linaro_media_create/boards.py: board profiles, partition plan and
      boot-file generation

    A shallow embedding of [src/linaro_media_create/boards.py].  Python
    integers are [Z] (the module is Python 2: [/] on integers is floor
    division), Python [str] is [string], class attributes are looked up along
    the method resolution order, the class attribute [serial_tty] that
    [set_appropriate_serial_tty] rebinds at run time lives in an explicit
    class state, and the subprocesses, the temporary file and [glob] are
    threaded through a state-and-exception monad over a record of the
    process's observable effects. *)

From Stdlib Require Import ZArith List String Ascii Bool Lia DecimalString.
Import ListNotations.

Open Scope string_scope.
Open Scope Z_scope.

(** ** Python values and string formatting *)

Module Py.

(** The values that the class attributes of the module hold. *)
Inductive value : Type :=
  | VNone
  | VStr (s : string)
  | VInt (z : Z).

(** The exceptions the module can raise. *)
Inductive exn : Type :=
  | AttributeError (msg : string)
  | TypeError (msg : string)
  | ValueError (msg : string)
  | AssertionError (msg : string)
  | NotImplementedError
  | SubprocessNonZeroRC (cmd : list string) (rc : Z).

Inductive result (A : Type) : Type :=
  | Ok (a : A)
  | Raise (e : exn).

Arguments Ok {A} a.
Arguments Raise {A} e.

Definition rbind {A B : Type} (r : result A) (k : A -> result B) : result B :=
  match r with
  | Ok a => k a
  | Raise e => Raise e
  end.

(** [str(n)] for an integer. *)
Definition str_int (z : Z) : string := NilZero.string_of_int (Z.to_int z).

(** [str(v)], which is what the conversion [%s] applies to its argument. *)
Definition str (v : value) : string :=
  match v with
  | VNone => "None"
  | VStr s => s
  | VInt z => str_int z
  end.

Definition nl : string := String (ascii_of_nat 10) EmptyString.

(** [template % arg] for a template and one non-tuple argument: each [%s]
    consumes an argument, [%%] is a literal percent sign.  The templates of
    the module use no other conversion; one is reported as the [ValueError]
    Python raises for an unsupported format character. *)
Fixpoint format_args (template : string) (args : list string)
  : result string :=
  match template with
  | EmptyString =>
      match args with
      | [] => Ok EmptyString
      | _ :: _ =>
          Raise (TypeError
                   "not all arguments converted during string formatting")
      end
  | String "%" (String "s" rest) =>
      match args with
      | [] => Raise (TypeError "not enough arguments for format string")
      | a :: args' =>
          rbind (format_args rest args') (fun r => Ok (a ++ r))
      end
  | String "%" (String "%" rest) =>
      rbind (format_args rest args) (fun r => Ok (String "%" r))
  | String "%" _ => Raise (ValueError "unsupported format character")
  | String c rest =>
      rbind (format_args rest args) (fun r => Ok (String c r))
  end.

(** [left % right] where [left] is any value: only a string has [%]. *)
Definition type_name (v : value) : string :=
  match v with
  | VNone => "NoneType"
  | VStr _ => "str"
  | VInt _ => "int"
  end.

Definition mod_format (left : value) (right : value) : result string :=
  match left with
  | VStr template => format_args template [str right]
  | _ =>
      Raise (TypeError
               ("unsupported operand type(s) for %: '" ++ type_name left
                ++ "' and '" ++ type_name right ++ "'"))
  end.

(** [sep.join(parts)]. *)
Fixpoint join (sep : string) (parts : list string) : string :=
  match parts with
  | [] => ""
  | [p] => p
  | p :: rest => p ++ sep ++ join sep rest
  end.

(** [s.split(sep_char)] for a one-character separator. *)
Fixpoint split (sep : ascii) (s : string) : list string :=
  match s with
  | EmptyString => [EmptyString]
  | String c rest =>
      if Ascii.eqb c sep then EmptyString :: split sep rest
      else match split sep rest with
           | [] => [String c EmptyString]
           | hd :: tl => String c hd :: tl
           end
  end.

Definition newline : ascii := ascii_of_nat 10.

Definition splitlines (s : string) : list string := split newline s.

End Py.

Import Py.

(** ** The partition plan (module-level constants) *)

Definition PART_ALIGN_S : Z := 4 * 1024 * 1024 / 512.
Definition LOADER_PART_START_S : Z := 2.
Definition BOOT_PART_START_S : Z := 8 * 1024 * 1024 / 512.
Definition ROOT_PART_START_S : Z := 64 * 1024 * 1024 / 512.
Definition BOOT_PART_START_CYL : Z := BOOT_PART_START_S / (63 * 255).
Definition LOADER_PART_SIZE_S : Z :=
  BOOT_PART_START_CYL * (63 * 255) - LOADER_PART_START_S.
Definition ROOT_PART_START_CYL : Z := ROOT_PART_START_S / (63 * 255).
Definition BOOT_PART_SIZE_S : Z :=
  ROOT_PART_START_CYL * (63 * 255) - BOOT_PART_START_S.

(** The four [assert] statements the module runs when it is loaded. *)
Definition module_asserts : list bool :=
  [ BOOT_PART_START_S / PART_ALIGN_S * PART_ALIGN_S =? BOOT_PART_START_S;
    ROOT_PART_START_S / PART_ALIGN_S * PART_ALIGN_S =? ROOT_PART_START_S;
    LOADER_PART_START_S + LOADER_PART_SIZE_S <? BOOT_PART_START_S;
    BOOT_PART_START_S + BOOT_PART_SIZE_S <? ROOT_PART_START_S ].

(** ** The class hierarchy *)

Inductive cls : Type :=
  | BoardConfig
  | OmapConfig
  | BeagleConfig
  | OveroConfig
  | PandaConfig
  | IgepConfig
  | Ux500Config
  | Mx51evkConfig
  | VexpressConfig.

Definition cls_eqb (a b : cls) : bool :=
  match a, b with
  | BoardConfig, BoardConfig | OmapConfig, OmapConfig
  | BeagleConfig, BeagleConfig | OveroConfig, OveroConfig
  | PandaConfig, PandaConfig | IgepConfig, IgepConfig
  | Ux500Config, Ux500Config | Mx51evkConfig, Mx51evkConfig
  | VexpressConfig, VexpressConfig => true
  | _, _ => false
  end.

(** The classes in the order of attribute lookup, the class itself first.
    [object] holds none of the attributes and is left out. *)
Definition mro (c : cls) : list cls :=
  match c with
  | BoardConfig => [BoardConfig]
  | OmapConfig => [OmapConfig; BoardConfig]
  | BeagleConfig => [BeagleConfig; OmapConfig; BoardConfig]
  | OveroConfig => [OveroConfig; OmapConfig; BoardConfig]
  | PandaConfig => [PandaConfig; OmapConfig; BoardConfig]
  | IgepConfig => [IgepConfig; BeagleConfig; OmapConfig; BoardConfig]
  | Ux500Config => [Ux500Config; BoardConfig]
  | Mx51evkConfig => [Mx51evkConfig; BoardConfig]
  | VexpressConfig => [VexpressConfig; BoardConfig]
  end.

(** The table [board_configs] at the bottom of the module. *)
Definition board_configs : list (string * cls) :=
  [ ("beagle", BeagleConfig); ("igep", IgepConfig); ("panda", PandaConfig);
    ("vexpress", VexpressConfig); ("ux500", Ux500Config);
    ("mx51evk", Mx51evkConfig); ("overo", OveroConfig) ].

Definition is_omap (c : cls) : bool :=
  existsb (cls_eqb OmapConfig) (mro c).

(** The data attributes that are never rebound after the module is loaded. *)
Inductive attr : Type :=
  | uboot_flavor | mmc_option | mmc_part_offset | fat_size
  | extra_boot_args_options
  | kernel_addr | initrd_addr | load_addr | kernel_suffix | boot_script
  | _extra_serial_opts | _live_serial_opts | _serial_tty.

Definition Ux500_serial_tty : string := "ttyAMA2".
Definition Mx51evk_serial_tty : string := "ttymxc0".
Definition Vexpress_serial_tty : string := "ttyAMA0".
Definition Vexpress_kernel_addr : string := "0x60008000".

(** The attributes a class body binds itself. *)
Definition class_body (c : cls) (a : attr) : option value :=
  match c, a with
  | BoardConfig, uboot_flavor => Some VNone
  | BoardConfig, mmc_option => Some (VStr "0:1")
  | BoardConfig, mmc_part_offset => Some (VInt 0)
  | BoardConfig, fat_size => Some (VInt 32)
  | BoardConfig, extra_boot_args_options => Some VNone
  | BoardConfig, kernel_addr => Some VNone
  | BoardConfig, initrd_addr => Some VNone
  | BoardConfig, load_addr => Some VNone
  | BoardConfig, kernel_suffix => Some VNone
  | BoardConfig, boot_script => Some VNone

  | OmapConfig, _extra_serial_opts => Some VNone
  | OmapConfig, _live_serial_opts => Some VNone
  | OmapConfig, _serial_tty => Some VNone

  | BeagleConfig, uboot_flavor => Some (VStr "omap3_beagle")
  | BeagleConfig, _serial_tty => Some (VStr "ttyO2")
  | BeagleConfig, _extra_serial_opts =>
      Some (VStr "console=tty0 console=%s,115200n8")
  | BeagleConfig, _live_serial_opts => Some (VStr "serialtty=%s")
  | BeagleConfig, kernel_addr => Some (VStr "0x80000000")
  | BeagleConfig, initrd_addr => Some (VStr "0x81600000")
  | BeagleConfig, load_addr => Some (VStr "0x80008000")
  | BeagleConfig, kernel_suffix => Some (VStr "linaro-omap")
  | BeagleConfig, boot_script => Some (VStr "boot.scr")
  | BeagleConfig, extra_boot_args_options =>
      Some (VStr ("earlyprintk fixrtc nocompcache vram=12M "
                  ++ "omapfb.mode=dvi:1280x720MR-16@60"))

  | OveroConfig, uboot_flavor => Some (VStr "omap3_overo")
  | OveroConfig, _serial_tty => Some (VStr "ttyO2")
  | OveroConfig, _extra_serial_opts =>
      Some (VStr "console=tty0 console=%s,115200n8")
  | OveroConfig, kernel_addr => Some (VStr "0x80000000")
  | OveroConfig, initrd_addr => Some (VStr "0x81600000")
  | OveroConfig, load_addr => Some (VStr "0x80008000")
  | OveroConfig, kernel_suffix => Some (VStr "linaro-omap")
  | OveroConfig, boot_script => Some (VStr "boot.scr")
  | OveroConfig, extra_boot_args_options => Some (VStr "earlyprintk")

  | PandaConfig, uboot_flavor => Some (VStr "omap4_panda")
  | PandaConfig, _serial_tty => Some (VStr "ttyO2")
  | PandaConfig, _extra_serial_opts =>
      Some (VStr "console=tty0 console=%s,115200n8")
  | PandaConfig, _live_serial_opts => Some (VStr "serialtty=%s")
  | PandaConfig, kernel_addr => Some (VStr "0x80200000")
  | PandaConfig, initrd_addr => Some (VStr "0x81600000")
  | PandaConfig, load_addr => Some (VStr "0x80008000")
  | PandaConfig, kernel_suffix => Some (VStr "linaro-omap")
  | PandaConfig, boot_script => Some (VStr "boot.scr")
  | PandaConfig, extra_boot_args_options =>
      Some (VStr ("earlyprintk fixrtc nocompcache vram=32M "
                  ++ "omapfb.vram=0:8M mem=463M ip=none"))

  | IgepConfig, uboot_flavor => Some VNone

  | Ux500Config, kernel_addr => Some (VStr "0x00100000")
  | Ux500Config, initrd_addr => Some (VStr "0x08000000")
  | Ux500Config, load_addr => Some (VStr "0x00008000")
  | Ux500Config, kernel_suffix => Some (VStr "ux500")
  | Ux500Config, boot_script => Some (VStr "flash.scr")
  | Ux500Config, extra_boot_args_options =>
      Some (VStr ("earlyprintk rootdelay=1 fixrtc nocompcache "
                  ++ "mem=96M@0 mem_modem=32M@96M mem=44M@128M pmem=22M@172M "
                  ++ "mem=30M@194M mem_mali=32M@224M pmem_hwb=54M@256M "
                  ++ "hwmem=48M@302M mem=152M@360M"))
  | Ux500Config, mmc_option => Some (VStr "1:1")

  | Mx51evkConfig, kernel_addr => Some (VStr "0x90000000")
  | Mx51evkConfig, initrd_addr => Some (VStr "0x90800000")
  | Mx51evkConfig, load_addr => Some (VStr "0x90008000")
  | Mx51evkConfig, kernel_suffix => Some (VStr "linaro-mx51")
  | Mx51evkConfig, boot_script => Some (VStr "boot.scr")
  | Mx51evkConfig, mmc_part_offset => Some (VInt 1)
  | Mx51evkConfig, mmc_option => Some (VStr "0:2")

  | VexpressConfig, uboot_flavor => Some (VStr "ca9x4_ct_vxp")
  | VexpressConfig, kernel_addr => Some (VStr Vexpress_kernel_addr)
  | VexpressConfig, initrd_addr => Some (VStr "0x81000000")
  | VexpressConfig, load_addr => Some (VStr Vexpress_kernel_addr)
  | VexpressConfig, kernel_suffix => Some (VStr "linaro-vexpress")
  | VexpressConfig, boot_script => Some VNone
  | VexpressConfig, fat_size => Some (VInt 16)

  | _, _ => None
  end.

(** Lookup of an attribute along a list of classes: the first class whose
    body binds it decides. *)
Fixpoint lookup_in {A : Type} (body : cls -> option A) (l : list cls)
  : option A :=
  match l with
  | [] => None
  | c :: rest =>
      match body c with
      | Some v => Some v
      | None => lookup_in body rest
      end
  end.

Definition attr_name (a : attr) : string :=
  match a with
  | uboot_flavor => "uboot_flavor" | mmc_option => "mmc_option"
  | mmc_part_offset => "mmc_part_offset" | fat_size => "fat_size"
  | extra_boot_args_options => "extra_boot_args_options"
  | kernel_addr => "kernel_addr" | initrd_addr => "initrd_addr"
  | load_addr => "load_addr" | kernel_suffix => "kernel_suffix"
  | boot_script => "boot_script"
  | _extra_serial_opts => "_extra_serial_opts"
  | _live_serial_opts => "_live_serial_opts"
  | _serial_tty => "_serial_tty"
  end.

(** [cls.<a>] for a data attribute. *)
Definition getattr (c : cls) (a : attr) : result value :=
  match lookup_in (fun k => class_body k a) (mro c) with
  | Some v => Ok v
  | None =>
      Raise (AttributeError
               ("type object has no attribute '" ++ attr_name a ++ "'"))
  end.

(** The value of a data attribute where the class has it ([None] elsewhere,
    which the three private attributes of [OmapConfig] are outside it). *)
Definition attr_value (c : cls) (a : attr) : value :=
  match getattr c a with
  | Ok v => v
  | Raise _ => VNone
  end.

(** ** The partitioning directive *)

(** [BoardConfig.get_sfdisk_cmd]. *)
Definition BoardConfig_get_sfdisk_cmd (c : cls) : result string :=
  rbind (getattr c fat_size) (fun fs =>
  let partition_type :=
    match fs with
    | VInt 32 => "0x0C"
    | _ => "0x0E"
    end in
  Ok (str_int BOOT_PART_START_S ++ "," ++ str_int BOOT_PART_SIZE_S ++ ","
      ++ partition_type ++ ",*" ++ nl
      ++ str_int ROOT_PART_START_S ++ ",,,-")).

(** [Mx51evkConfig.get_sfdisk_cmd]: the loader partition line, then what the
    base class returns. *)
Definition Mx51evkConfig_get_sfdisk_cmd (c : cls) : result string :=
  rbind (BoardConfig_get_sfdisk_cmd c) (fun sfdisk_cmd =>
  Ok (str_int LOADER_PART_START_S ++ "," ++ str_int LOADER_PART_SIZE_S
      ++ ",0xDA" ++ nl ++ sfdisk_cmd)).

(** [cls.get_sfdisk_cmd()]: only [Mx51evkConfig] overrides the method. *)
Definition get_sfdisk_cmd (c : cls) : result string :=
  match c with
  | Mx51evkConfig => Mx51evkConfig_get_sfdisk_cmd c
  | _ => BoardConfig_get_sfdisk_cmd c
  end.

(** ** The serial TTY and the serial options

    [serial_tty], [extra_serial_opts] and [live_serial_opts] are plain class
    attributes on [BoardConfig] and on the boards outside the OMAP family,
    and [classproperty] descriptors on [OmapConfig].  A descriptor's getter
    receives the class the attribute was read on, not the class that holds
    the descriptor. *)

(** What a class's own dictionary can hold under [serial_tty]. *)
Inductive tty_entry : Type :=
  | TtyValue (v : value)
      (** a plain value *)
  | TtyUnset
      (** the descriptor of [OmapConfig], whose getter raises *)
  | TtyDefault
      (** [classproperty(lambda cls: cls._serial_tty)] *)
  | TtyS2.
      (** [classproperty(lambda cls: 'ttyS2')] *)

(** The [serial_tty] entry of every class dictionary: the one part of the
    classes that the module rebinds at run time. *)
Definition class_state : Type := cls -> option tty_entry.

(** The classes as the module's class statements leave them. *)
Definition loaded : class_state :=
  fun c =>
    match c with
    | BoardConfig => Some (TtyValue VNone)
    | OmapConfig => Some TtyUnset
    | Ux500Config => Some (TtyValue (VStr Ux500_serial_tty))
    | Mx51evkConfig => Some (TtyValue (VStr Mx51evk_serial_tty))
    | VexpressConfig => Some (TtyValue (VStr Vexpress_serial_tty))
    | _ => None
    end.

(** [cls.serial_tty = entry]: the assignment binds the name in the
    dictionary of [c] itself. *)
Definition setattr_serial_tty (st : class_state) (c : cls) (e : tty_entry)
  : class_state :=
  fun k => if cls_eqb k c then Some e else st k.

Definition unset_message : string :=
  "You must not use this attribute before calling "
  ++ "set_appropriate_serial_tty".

(** [cls.serial_tty]. *)
Definition get_serial_tty (st : class_state) (c : cls) : result value :=
  match lookup_in st (mro c) with
  | Some (TtyValue v) => Ok v
  | Some TtyUnset => Raise (AttributeError unset_message)
  | Some TtyDefault => getattr c _serial_tty
  | Some TtyS2 => Ok (VStr "ttyS2")
  | None =>
      Raise (AttributeError "type object has no attribute 'serial_tty'")
  end.

(** What a class body binds under [extra_serial_opts] and
    [live_serial_opts]. *)
Inductive opts_entry : Type :=
  | OptsValue (v : value)
  | OptsProperty.

(** The bodies of [Ux500Config], [Mx51evkConfig] and [VexpressConfig] format
    their templates with the class's [serial_tty] while the class statement
    runs; the entries hold the formatted strings ([class_time_templates]
    below relates them to the templates). *)
Definition extra_serial_opts_body (c : cls) : option opts_entry :=
  match c with
  | BoardConfig => Some (OptsValue (VStr ""))
  | OmapConfig => Some OptsProperty
  | Ux500Config =>
      Some (OptsValue
              (VStr ("console=tty0 console=" ++ Ux500_serial_tty
                     ++ ",115200n8")))
  | Mx51evkConfig =>
      Some (OptsValue
              (VStr ("console=tty0 console=" ++ Mx51evk_serial_tty
                     ++ ",115200n8")))
  | VexpressConfig =>
      Some (OptsValue
              (VStr ("console=tty0 console=" ++ Vexpress_serial_tty
                     ++ ",38400n8")))
  | _ => None
  end.

Definition live_serial_opts_body (c : cls) : option opts_entry :=
  match c with
  | BoardConfig => Some (OptsValue (VStr ""))
  | OmapConfig => Some OptsProperty
  | Ux500Config =>
      Some (OptsValue (VStr ("serialtty=" ++ Ux500_serial_tty)))
  | Mx51evkConfig =>
      Some (OptsValue (VStr ("serialtty=" ++ Mx51evk_serial_tty)))
  | VexpressConfig =>
      Some (OptsValue (VStr ("serialtty=" ++ Vexpress_serial_tty)))
  | _ => None
  end.

(** The getters of [OmapConfig]: [cls.<template> % cls.serial_tty], the left
    operand evaluated first. *)
Definition serial_opts_getter (st : class_state) (c : cls) (template : attr)
  : result value :=
  rbind (getattr c template) (fun t =>
  rbind (get_serial_tty st c) (fun tty =>
  rbind (mod_format t tty) (fun s => Ok (VStr s)))).

(** [cls.extra_serial_opts]. *)
Definition get_extra_serial_opts (st : class_state) (c : cls)
  : result value :=
  match lookup_in extra_serial_opts_body (mro c) with
  | Some (OptsValue v) => Ok v
  | Some OptsProperty => serial_opts_getter st c _extra_serial_opts
  | None =>
      Raise (AttributeError
               "type object has no attribute 'extra_serial_opts'")
  end.

(** [cls.live_serial_opts]. *)
Definition get_live_serial_opts (st : class_state) (c : cls)
  : result value :=
  match lookup_in live_serial_opts_body (mro c) with
  | Some (OptsValue v) => Ok v
  | Some OptsProperty => serial_opts_getter st c _live_serial_opts
  | None =>
      Raise (AttributeError
               "type object has no attribute 'live_serial_opts'")
  end.

(** ** The boot command *)

Declare Scope result_scope.
Delimit Scope result_scope with result.
Notation "x <- r ;; k" := (rbind r (fun x => k))
  (at level 100, r at next level, right associativity) : result_scope.

(** The loop over [consoles] and the [serialtty=] option that follows it
    inside the test [consoles is not None]. *)
Definition console_opts (st : class_state) (c : cls) (is_live : bool)
  (consoles : option (list string)) (serial_opts : string) : result string :=
  match consoles with
  | Some cs =>
      let serial_opts :=
        fold_left (fun acc console => acc ++ " console=" ++ console)
                  cs serial_opts in
      if is_live then
        rbind (get_serial_tty st c) (fun tty =>
        Ok (serial_opts ++ " serialtty=" ++ str tty))
      else Ok serial_opts
  | None => Ok serial_opts
  end.

(** [BoardConfig._get_boot_cmd], which no board overrides.  [consoles] is
    [None] or a list of strings. *)
Definition _get_boot_cmd (st : class_state) (c : cls)
  (is_live is_lowmem : bool) (consoles : option (list string))
  (rootfs_uuid : string) : result string :=
  (let boot_args_options := "rootwait ro" in
   extra <- getattr c extra_boot_args_options ;;
   let boot_args_options :=
     match extra with
     | VNone => boot_args_options
     | _ => boot_args_options ++ " " ++ str extra
     end in
   let serial_opts := "" in
   serial_opts <- console_opts st c is_live consoles serial_opts ;;
   extra_serial <- get_extra_serial_opts st c ;;
   let serial_opts := serial_opts ++ " " ++ str extra_serial in
   let lowmem_opt := "" in
   let boot_snippet := "root=UUID=" ++ rootfs_uuid in
   live <-
     (if is_live then
        live_serial <- get_live_serial_opts st c ;;
        Ok (serial_opts ++ " " ++ str live_serial,
            "boot=casper",
            if is_lowmem then "only-ubiquity" else lowmem_opt)
      else Ok (serial_opts, boot_snippet, lowmem_opt)) ;;
   let '(serial_opts, boot_snippet, lowmem_opt) := live in
   mmc <- getattr c mmc_option ;;
   kernel <- getattr c kernel_addr ;;
   initrd <- getattr c initrd_addr ;;
   Ok ("setenv bootcmd 'fatload mmc " ++ str mmc ++ " " ++ str kernel
       ++ " uImage; fatload mmc " ++ str mmc ++ " " ++ str initrd
       ++ " uInitrd; bootm " ++ str kernel ++ " " ++ str initrd ++ "'" ++ nl
       ++ "setenv bootargs '" ++ serial_opts ++ " " ++ lowmem_opt ++ " "
       ++ boot_snippet ++ " " ++ boot_args_options ++ "'" ++ nl
       ++ "boot"))%result.

(** ** Paths and the kernel version *)

Fixpoint ends_with_slash (s : string) : bool :=
  match s with
  | EmptyString => false
  | String c EmptyString => Ascii.eqb c "/"
  | String _ rest => ends_with_slash rest
  end.

(** One round of the loop of [os.path.join]. *)
Definition path_join_step (path b : string) : string :=
  if prefix "/" b then b
  else if (String.eqb path "" || ends_with_slash path)%bool then path ++ b
  else path ++ "/" ++ b.

(** [os.path.join(a, *p)]. *)
Definition os_path_join (a : string) (p : list string) : string :=
  fold_left path_join_step p a.

(** [os.path.basename(p)]: what follows the last slash. *)
Definition os_path_basename (p : string) : string :=
  last (split "/" p) "".

Definition is_digit (c : ascii) : bool :=
  ((48 <=? nat_of_ascii c)%nat && (nat_of_ascii c <=? 57)%nat)%bool.

(** A match of [2\.6\.([0-9]{2})] at the head of [s]: the group. *)
Definition match_2_6_at (s : string) : option (ascii * ascii) :=
  match s with
  | String "2" (String "." (String "6" (String "." (String d1 (String d2 _)))))
    => if (is_digit d1 && is_digit d2)%bool then Some (d1, d2) else None
  | _ => None
  end.

(** [re.match('.*2\.6\.([0-9]{2}).*', s)], reduced to its group 1.  The
    leading [.*] is greedy and does not cross a newline: the match of the
    rest that starts latest, at or before the first newline, wins. *)
Fixpoint re_match_minor (s : string) : option (ascii * ascii) :=
  match s with
  | EmptyString => None
  | String c rest =>
      if Ascii.eqb c newline then None
      else match re_match_minor rest with
           | Some g => Some g
           | None => match_2_6_at s
           end
  end.

(** [int(group)] for a group of two decimal digits. *)
Definition int_of_group (g : ascii * ascii) : Z :=
  let '(d1, d2) := g in
  10 * (Z.of_nat (nat_of_ascii d1) - 48) + (Z.of_nat (nat_of_ascii d2) - 48).

(** ** Effects: subprocesses, files and the classes *)

(** One call of [cmd_runner.run]. *)
Record call : Type := mkCall { argv : list value; as_root : bool }.

(** What the process has done so far. *)
Record world : Type := mkWorld {
  classes : class_state;
  calls : list call;                 (** subprocesses, oldest first *)
  written : list (string * string);  (** files written: path, content *)
  at_exit : list string              (** paths registered for [os.unlink] *)
}.

Definition M (A : Type) : Type := world -> result A * world.

Definition ret {A : Type} (a : A) : M A := fun w => (Ok a, w).
Definition raise {A : Type} (e : exn) : M A := fun w => (Raise e, w).
Definition bind {A B : Type} (m : M A) (k : A -> M B) : M B :=
  fun w =>
    match m w with
    | (Ok a, w') => k a w'
    | (Raise e, w') => (Raise e, w')
    end.
Definition lift {A : Type} (r : result A) : M A := fun w => (r, w).

Declare Scope io_scope.
Delimit Scope io_scope with io.
Notation "x <- m ;; k" := (bind m (fun x => k))
  (at level 100, m at next level, right associativity) : io_scope.
Notation "m ;; k" := (bind m (fun _ => k))
  (at level 100, right associativity) : io_scope.

Section Environment.

(** The file system as [glob.glob] sees it after the subprocesses run so
    far. *)
Variable glob : list call -> string -> list string.

(** The exit status of a subprocess, given the ones run before it. *)
Variable exit_status : list call -> call -> Z.

(** The path [tempfile.mkstemp] hands out, given the files written so far. *)
Variable mkstemp : list (string * string) -> string.

Definition glob_glob (pattern : string) : M (list string) :=
  fun w => (Ok (glob (calls w) pattern), w).

(** Modelled from the spec: [cmd_runner] is not among the sources.  [run]
    spawns the command (with privilege elevation when [as_root]) and returns
    the process; waiting for it checks the exit status and surfaces a
    non-zero one as external-tool-failed, carrying the exit status and the
    command. *)
Definition cmd_runner_run (cmd : list value) (root : bool) : M (call * Z) :=
  fun w =>
    let c := mkCall cmd root in
    (Ok (c, exit_status (calls w) c),
     mkWorld (classes w) (calls w ++ [c]) (written w) (at_exit w)).

(** Modelled from the spec: [proc.wait()] of [cmd_runner], which is not
    among the sources; a non-zero exit status is raised as
    external-tool-failed, with the command and the status. *)
Definition proc_wait (proc : call * Z) : M Z :=
  let '(c, rc) := proc in
  if rc =? 0 then ret rc
  else raise (SubprocessNonZeroRC (map str (argv c)) rc).

(** [_run_mkimage]: the parameter [entry_point] is not used, [-e] gets
    [load_addr] too. *)
Definition _run_mkimage (img_type : string) (load_addr entry_point : value)
  (name img_data img : string) : M Z :=
  (let cmd := [VStr "mkimage";
               VStr "-A"; VStr "arm";
               VStr "-O"; VStr "linux";
               VStr "-T"; VStr img_type;
               VStr "-C"; VStr "none";
               VStr "-a"; load_addr;
               VStr "-e"; load_addr;
               VStr "-n"; VStr name;
               VStr "-d"; VStr img_data;
               VStr img] in
   proc <- cmd_runner_run cmd true ;;
   proc_wait proc)%io.

(** [_get_file_matching]. *)
Definition _get_file_matching (regex : string) : M string :=
  (files <- glob_glob regex ;;
   match files with
   | [f] => ret f
   | [] =>
       raise (ValueError
                ("No files found matching '" ++ regex ++ "'; can't continue"))
   | _ =>
       raise (ValueError
                ("Too many files matching '" ++ regex ++ "' found."))
   end)%io.

Definition make_uImage (load_addr : value) (uboot_parts_dir : string)
  (suffix : value) (boot_disk : string) : M Z :=
  (img_data <- _get_file_matching
                 (uboot_parts_dir ++ "/vmlinuz-*-" ++ str suffix) ;;
   let img := boot_disk ++ "/uImage" in
   _run_mkimage "kernel" load_addr load_addr "Linux" img_data img)%io.

Definition make_uInitrd (uboot_parts_dir : string) (suffix : value)
  (boot_disk : string) : M Z :=
  (img_data <- _get_file_matching
                 (uboot_parts_dir ++ "/initrd.img-*-" ++ str suffix) ;;
   let img := boot_disk ++ "/uInitrd" in
   _run_mkimage "ramdisk" (VStr "0") (VStr "0") "initramfs" img_data img)%io.

Definition tempfile_mkstemp : M string :=
  fun w => (Ok (mkstemp (written w)), w).

(** [atexit.register(os.unlink, path)]. *)
Definition atexit_register_unlink (path : string) : M unit :=
  fun w =>
    (Ok tt, mkWorld (classes w) (calls w) (written w) (at_exit w ++ [path])).

(** [with open(path, 'w') as fd: fd.write(data)]. *)
Definition write_file (path data : string) : M unit :=
  fun w =>
    (Ok tt,
     mkWorld (classes w) (calls w) (written w ++ [(path, data)]) (at_exit w)).

Definition make_boot_script (boot_script_data boot_script : string) : M Z :=
  (tmpfile <- tempfile_mkstemp ;;
   atexit_register_unlink tmpfile ;;
   write_file tmpfile boot_script_data ;;
   _run_mkimage "script" (VStr "0") (VStr "0") "boot script" tmpfile
                boot_script)%io.

Definition install_mx51evk_boot_loader (imx_file boot_device_or_file : string)
  : M unit :=
  (proc <- cmd_runner_run
             [VStr "dd";
              VStr ("if=" ++ imx_file);
              VStr ("of=" ++ boot_device_or_file);
              VStr "bs=1024";
              VStr "seek=1";
              VStr "conv=notrunc"] true ;;
   proc_wait proc ;;
   ret tt)%io.

Definition _get_mlo_file (chroot_dir : string) : M string :=
  (files <- glob_glob (os_path_join chroot_dir ["usr"; "lib"; "*"; "*"; "MLO"]) ;;
   files <- (match files with
             | [] => glob_glob
                       (os_path_join chroot_dir ["usr"; "lib"; "*"; "MLO"])
             | _ => ret files
             end) ;;
   match files with
   | [f] => ret f
   | [] => raise (AssertionError ("No MLO files found on " ++ chroot_dir))
   | _ =>
       raise (AssertionError
                ("More than one MLO file found on " ++ chroot_dir))
   end)%io.

Definition install_omap_boot_loader (chroot_dir boot_disk : string)
  : M unit :=
  (mlo_file <- _get_mlo_file chroot_dir ;;
   proc <- cmd_runner_run
             [VStr "cp"; VStr "-v"; VStr mlo_file; VStr boot_disk] true ;;
   proc_wait proc ;;
   proc <- cmd_runner_run [VStr "sync"] false ;;
   proc_wait proc ;;
   ret tt)%io.

Definition make_boot_ini (boot_script boot_disk : string) : M unit :=
  (proc <- cmd_runner_run
             [VStr "cp"; VStr "-v"; VStr boot_script;
              VStr (boot_disk ++ "/boot.ini")] true ;;
   proc_wait proc ;;
   ret tt)%io.

(** ** The methods that act on the world *)

(** [cls.serial_tty = entry] as an action. *)
Definition set_serial_tty (c : cls) (e : tty_entry) : M unit :=
  fun w =>
    (Ok tt,
     mkWorld (setattr_serial_tty (classes w) c e) (calls w) (written w)
             (at_exit w)).

(** [OmapConfig.set_appropriate_serial_tty]; the other classes have no such
    method.  The default is bound before the kernel is looked for. *)
Definition set_appropriate_serial_tty (c : cls) (chroot_dir : string)
  : M unit :=
  (if is_omap c then
     set_serial_tty c TtyDefault ;;
     vmlinuz <- _get_file_matching
                  (os_path_join chroot_dir ["boot"; "vmlinuz*"]) ;;
     let basename := os_path_basename vmlinuz in
     match re_match_minor basename with
     | None =>
         raise (AttributeError
                  "'NoneType' object has no attribute 'group'")
     | Some minor_version =>
         if int_of_group minor_version <? 36
         then set_serial_tty c TtyS2
         else ret tt
     end
   else
     raise (AttributeError
              "type object has no attribute 'set_appropriate_serial_tty'"))%io.

(** [OmapConfig._make_boot_files], inherited by Beagle, Overo and Panda. *)
Definition OmapConfig__make_boot_files (c : cls)
  (uboot_parts_dir boot_cmd chroot_dir boot_dir boot_script
   boot_device_or_file : string) : M unit :=
  (install_omap_boot_loader chroot_dir boot_dir ;;
   load <- lift (getattr c load_addr) ;;
   suffix <- lift (getattr c kernel_suffix) ;;
   make_uImage load uboot_parts_dir suffix boot_dir ;;
   suffix <- lift (getattr c kernel_suffix) ;;
   make_uInitrd uboot_parts_dir suffix boot_dir ;;
   make_boot_script boot_cmd boot_script ;;
   make_boot_ini boot_script boot_dir)%io.

Definition IgepConfig__make_boot_files (c : cls)
  (uboot_parts_dir boot_cmd chroot_dir boot_dir boot_script
   boot_device_or_file : string) : M unit :=
  (load <- lift (getattr c load_addr) ;;
   suffix <- lift (getattr c kernel_suffix) ;;
   make_uImage load uboot_parts_dir suffix boot_dir ;;
   suffix <- lift (getattr c kernel_suffix) ;;
   make_uInitrd uboot_parts_dir suffix boot_dir ;;
   make_boot_script boot_cmd boot_script ;;
   make_boot_ini boot_script boot_dir)%io.

Definition Ux500Config__make_boot_files (c : cls)
  (uboot_parts_dir boot_cmd chroot_dir boot_dir boot_script
   boot_device_or_file : string) : M unit :=
  (load <- lift (getattr c load_addr) ;;
   suffix <- lift (getattr c kernel_suffix) ;;
   make_uImage load uboot_parts_dir suffix boot_dir ;;
   suffix <- lift (getattr c kernel_suffix) ;;
   make_uInitrd uboot_parts_dir suffix boot_dir ;;
   make_boot_script boot_cmd boot_script ;;
   ret tt)%io.

Definition Mx51evkConfig__make_boot_files (c : cls)
  (uboot_parts_dir boot_cmd chroot_dir boot_dir boot_script
   boot_device_or_file : string) : M unit :=
  (let uboot_file :=
     os_path_join chroot_dir
                  ["usr"; "lib"; "u-boot"; "mx51evk"; "u-boot.imx"] in
   install_mx51evk_boot_loader uboot_file boot_device_or_file ;;
   load <- lift (getattr c load_addr) ;;
   suffix <- lift (getattr c kernel_suffix) ;;
   make_uImage load uboot_parts_dir suffix boot_dir ;;
   suffix <- lift (getattr c kernel_suffix) ;;
   make_uInitrd uboot_parts_dir suffix boot_dir ;;
   make_boot_script boot_cmd boot_script ;;
   ret tt)%io.

Definition VexpressConfig__make_boot_files (c : cls)
  (uboot_parts_dir boot_cmd chroot_dir boot_dir boot_script
   boot_device_or_file : string) : M unit :=
  (load <- lift (getattr c load_addr) ;;
   suffix <- lift (getattr c kernel_suffix) ;;
   make_uImage load uboot_parts_dir suffix boot_dir ;;
   suffix <- lift (getattr c kernel_suffix) ;;
   make_uInitrd uboot_parts_dir suffix boot_dir ;;
   ret tt)%io.

(** [cls._make_boot_files(...)]: the method of the nearest class that
    defines one. *)
Definition _make_boot_files (c : cls)
  : string -> string -> string -> string -> string -> string -> M unit :=
  match c with
  | BoardConfig => fun _ _ _ _ _ _ => raise NotImplementedError
  | OmapConfig | BeagleConfig | OveroConfig | PandaConfig =>
      OmapConfig__make_boot_files c
  | IgepConfig => IgepConfig__make_boot_files c
  | Ux500Config => Ux500Config__make_boot_files c
  | Mx51evkConfig => Mx51evkConfig__make_boot_files c
  | VexpressConfig => VexpressConfig__make_boot_files c
  end.

(** [BoardConfig.make_boot_files]. *)
Definition BoardConfig_make_boot_files (c : cls) (uboot_parts_dir : string)
  (is_live is_lowmem : bool) (consoles : option (list string))
  (root_dir rootfs_uuid boot_dir boot_script boot_device_or_file : string)
  : M unit :=
  (boot_cmd <- (fun w =>
                  (_get_boot_cmd (classes w) c is_live is_lowmem consoles
                                 rootfs_uuid, w)) ;;
   _make_boot_files c uboot_parts_dir boot_cmd root_dir boot_dir boot_script
                    boot_device_or_file)%io.

(** [cls.make_boot_files(...)]: [OmapConfig] resolves the serial TTY first. *)
Definition make_boot_files (c : cls) (uboot_parts_dir : string)
  (is_live is_lowmem : bool) (consoles : option (list string))
  (root_dir rootfs_uuid boot_dir boot_script boot_device_or_file : string)
  : M unit :=
  (if is_omap c then
     set_appropriate_serial_tty c root_dir ;;
     BoardConfig_make_boot_files c uboot_parts_dir is_live is_lowmem consoles
       root_dir rootfs_uuid boot_dir boot_script boot_device_or_file
   else
     BoardConfig_make_boot_files c uboot_parts_dir is_live is_lowmem consoles
       root_dir rootfs_uuid boot_dir boot_script boot_device_or_file)%io.

End Environment.

(** The process right after the module is loaded. *)
Definition start : world := mkWorld loaded [] [] [].

(** * Vocabulary of the statements *)

(** A line [<start>,<size>,<type>] of the directive, with [,*] when the
    partition is bootable. *)
Definition sfdisk_line (start size : Z) (type : string) (bootable : bool)
  : string :=
  str_int start ++ "," ++ str_int size ++ "," ++ type
  ++ (if bootable then ",*" else "").

(** The line of the root partition: no size, no type, not bootable. *)
Definition root_line : string := str_int ROOT_PART_START_S ++ ",,,-".

Definition loader_line : string :=
  sfdisk_line LOADER_PART_START_S LOADER_PART_SIZE_S "0xDA" false.

Definition boot_line (type : string) : string :=
  sfdisk_line BOOT_PART_START_S BOOT_PART_SIZE_S type true.

(** Every part preceded by a space: how [_get_boot_cmd] accumulates
    [serial_opts]. *)
Fixpoint spaced (parts : list string) : string :=
  match parts with
  | [] => ""
  | p :: rest => " " ++ p ++ spaced rest
  end.

Fixpoint no_newline (s : string) : bool :=
  match s with
  | EmptyString => true
  | String c rest => (negb (Ascii.eqb c newline) && no_newline rest)%bool
  end.

(** The first line of the boot command: load the kernel image to
    [kernel_addr] and the initrd image to [initrd_addr] from the MMC slot
    [mmc_option], then [bootm]. *)
Definition bootcmd_line (c : cls) : string :=
  "setenv bootcmd '"
  ++ "fatload mmc " ++ str (attr_value c mmc_option) ++ " "
  ++ str (attr_value c kernel_addr) ++ " uImage; "
  ++ "fatload mmc " ++ str (attr_value c mmc_option) ++ " "
  ++ str (attr_value c initrd_addr) ++ " uInitrd; "
  ++ "bootm " ++ str (attr_value c kernel_addr) ++ " "
  ++ str (attr_value c initrd_addr) ++ "'".

Definition bootargs_line (bootargs : string) : string :=
  "setenv bootargs '" ++ bootargs ++ "'".

(** The last part of the boot arguments: [rootwait ro], then the class's
    [extra_boot_args_options] when it has one. *)
Definition boot_args_options (c : cls) : string :=
  match attr_value c extra_boot_args_options with
  | VNone => "rootwait ro"
  | extra => "rootwait ro " ++ str extra
  end.

Definition console_tokens (consoles : option (list string)) : list string :=
  match consoles with
  | Some cs => map (fun console => "console=" ++ console) cs
  | None => []
  end.

(** The boot arguments as the specification words them: the parts that are
    present, joined by single spaces. *)
Definition spec_bootargs (c : cls) (tty extra_serial live_serial : value)
  (is_live is_lowmem : bool) (consoles : option (list string))
  (rootfs_uuid : string) : string :=
  join " "
    (console_tokens consoles
     ++ (if is_live then ["serialtty=" ++ str tty] else [])
     ++ [str extra_serial]
     ++ (if is_live
         then str live_serial
              :: (if is_lowmem then ["only-ubiquity"] else [])
         else [])
     ++ [if is_live then "boot=casper" else "root=UUID=" ++ rootfs_uuid]
     ++ [boot_args_options c]).

(** The boot arguments as the code builds them: a space, then the parts
    joined by single spaces, where [serialtty=] needs a list of consoles as
    well, and the low-memory option is a part of its own even when it is the
    empty string. *)
Definition code_bootargs (c : cls) (tty extra_serial live_serial : value)
  (is_live is_lowmem : bool) (consoles : option (list string))
  (rootfs_uuid : string) : string :=
  " " ++
  join " "
    (console_tokens consoles
     ++ (match consoles with
         | Some _ => if is_live then ["serialtty=" ++ str tty] else []
         | None => []
         end)
     ++ [str extra_serial]
     ++ (if is_live then [str live_serial] else [])
     ++ [if (is_live && is_lowmem)%bool then "only-ubiquity" else ""]
     ++ [if is_live then "boot=casper" else "root=UUID=" ++ rootfs_uuid]
     ++ [boot_args_options c]).

(** The command line [_run_mkimage] builds. *)
Definition mkimage_call (img_type : string) (load entry : value)
  (name img_data img : string) : call :=
  mkCall [VStr "mkimage"; VStr "-A"; VStr "arm"; VStr "-O"; VStr "linux";
          VStr "-T"; VStr img_type; VStr "-C"; VStr "none";
          VStr "-a"; load; VStr "-e"; entry;
          VStr "-n"; VStr name; VStr "-d"; VStr img_data; VStr img]
         true.

(** The copy [make_boot_ini] runs. *)
Definition boot_ini_call (boot_script boot_disk : string) : call :=
  mkCall [VStr "cp"; VStr "-v"; VStr boot_script;
          VStr (boot_disk ++ "/boot.ini")]
         true.

(** The program a call runs. *)
Definition program (c : call) : option value := hd_error (argv c).

(** The argument that follows the option [flag] on a command line. *)
Fixpoint arg_after (flag : string) (args : list value) : option value :=
  match args with
  | [] => None
  | a :: rest =>
      match a, rest with
      | VStr f, x :: _ =>
          if String.eqb f flag then Some x else arg_after flag rest
      | _, _ => arg_after flag rest
      end
  end.

(** The world after more subprocesses, written files and exit hooks. *)
Definition after (w : world) (l : list call)
  (files : list (string * string)) (hooks : list string) : world :=
  mkWorld (classes w) (calls w ++ l) (written w ++ files)
          (at_exit w ++ hooks).

(** The classes whose [_make_boot_files] installs the OMAP boot loader
    first. *)
Definition installs_mlo (c : cls) : bool :=
  match c with
  | OmapConfig | BeagleConfig | OveroConfig | PandaConfig => true
  | _ => false
  end.

(** The classes whose [_make_boot_files] compiles the boot script. *)
Definition makes_boot_script (c : cls) : bool :=
  match c with
  | BoardConfig | VexpressConfig => false
  | _ => true
  end.

(** The subprocesses of a run of [_make_boot_files] in which every step
    succeeds. *)
Definition expected_calls (c : cls)
  (uboot_parts_dir chroot_dir boot_dir boot_script boot_device_or_file
   mlo kernel initrd tmpfile : string) : list call :=
  (if installs_mlo c
   then [mkCall [VStr "cp"; VStr "-v"; VStr mlo; VStr boot_dir] true;
         mkCall [VStr "sync"] false]
   else [])
  ++ (match c with
      | Mx51evkConfig =>
          [mkCall [VStr "dd";
                   VStr ("if=" ++ os_path_join chroot_dir
                                    ["usr"; "lib"; "u-boot"; "mx51evk";
                                     "u-boot.imx"]);
                   VStr ("of=" ++ boot_device_or_file);
                   VStr "bs=1024"; VStr "seek=1"; VStr "conv=notrunc"] true]
      | _ => []
      end)
  ++ [mkimage_call "kernel" (attr_value c load_addr)
                   (attr_value c load_addr) "Linux" kernel
                   (boot_dir ++ "/uImage");
      mkimage_call "ramdisk" (VStr "0") (VStr "0") "initramfs" initrd
                   (boot_dir ++ "/uInitrd")]
  ++ (if makes_boot_script c
      then [mkimage_call "script" (VStr "0") (VStr "0") "boot script"
                         tmpfile boot_script]
      else [])
  ++ (if is_omap c then [boot_ini_call boot_script boot_dir] else []).

(** [_get_mlo_file] finds [mlo]: under [usr/lib/*/*/MLO], or else under
    [usr/lib/*/MLO]. *)
Definition mlo_found (glob : list call -> string -> list string)
  (chroot_dir mlo : string) : Prop :=
  forall h,
    glob h (os_path_join chroot_dir ["usr"; "lib"; "*"; "*"; "MLO"]) = [mlo]
    \/ (glob h (os_path_join chroot_dir ["usr"; "lib"; "*"; "*"; "MLO"]) = []
        /\ glob h (os_path_join chroot_dir ["usr"; "lib"; "*"; "MLO"])
           = [mlo]).

(** The environment in which every step of [_make_boot_files] succeeds:
    the subprocesses exit with status 0, the kernel and the initrd are
    there once each, and so is the MLO file where it is needed. *)
Definition builds (glob : list call -> string -> list string)
  (exit_status : list call -> call -> Z) (c : cls)
  (uboot_parts_dir chroot_dir mlo kernel initrd : string) : Prop :=
  (forall h call, exit_status h call = 0)
  /\ (installs_mlo c = true -> mlo_found glob chroot_dir mlo)
  /\ (forall h,
         glob h (uboot_parts_dir ++ "/vmlinuz-*-"
                 ++ str (attr_value c kernel_suffix)) = [kernel])
  /\ (forall h,
         glob h (uboot_parts_dir ++ "/initrd.img-*-"
                 ++ str (attr_value c kernel_suffix)) = [initrd]).

(** [m] only appends subprocesses, and each one it appends satisfies [P]. *)
Definition adds {A : Type} (P : call -> Prop) (m : M A) : Prop :=
  forall w, exists l, calls (snd (m w)) = (calls w ++ l)%list /\ Forall P l.

(** When [m] returns, the subprocess it ran last is [c]. *)
Definition ends_with {A : Type} (c : call) (m : M A) : Prop :=
  forall w a w',
    m w = (Ok a, w') -> exists l, calls w' = (calls w ++ l ++ [c])%list.

(** An environment for examples: a root file system with an OMAP kernel
    2.6.35 and an MLO file, and the kernel and initrd unpacked under
    [/parts]. *)
Definition example_glob (_ : list call) (pattern : string) : list string :=
  if String.eqb pattern "/chroot/boot/vmlinuz*"
  then ["/chroot/boot/vmlinuz-2.6.35-1000-linaro-omap"]
  else if String.eqb pattern "/parts/vmlinuz-*-linaro-omap"
  then ["/parts/vmlinuz-2.6.35-1000-linaro-omap"]
  else if String.eqb pattern "/parts/initrd.img-*-linaro-omap"
  then ["/parts/initrd.img-2.6.35-1000-linaro-omap"]
  else if String.eqb pattern "/chroot/usr/lib/*/MLO"
  then ["/chroot/usr/lib/x-loader-omap3/MLO"]
  else if String.eqb pattern "/parts/vmlinuz-*-ux500"
  then ["/parts/vmlinuz-2.6.35-1000-ux500"]
  else if String.eqb pattern "/parts/initrd.img-*-ux500"
  then ["/parts/initrd.img-2.6.35-1000-ux500"]
  else [].

Definition example_exit_status (_ : list call) (_ : call) : Z := 0.

Definition example_mkstemp (_ : list (string * string)) : string :=
  "/tmp/tmpAbCdEf".

(** ** Vocabulary of the further properties *)

(** A line of the directive that marks its partition bootable: it ends in
    [,*]. *)
Definition is_bootable_line (line : string) : bool :=
  String.eqb (substring (String.length line - 2) 2 line) ",*".

(** [k] is [c] or inherits from it. *)
Definition inherits (k c : cls) : bool := existsb (cls_eqb c) (mro k).

(** The text [2.6.] and two digits that the regular expression of
    [set_appropriate_serial_tty] looks for. *)
Definition version_2_6 (g : ascii * ascii) (rest : string) : string :=
  "2.6." ++ String (fst g) (String (snd g) rest).

(** The serial TTY a board of the OMAP family gets for a kernel whose name
    holds the two digits [g]. *)
Definition resolved_tty (g : ascii * ascii) : string :=
  if int_of_group g <? 36 then "ttyS2" else "ttyO2".

(** Every run of [m] takes a world to one that [R] relates to it, however
    the run ends. *)
Definition steps {A : Type} (R : world -> world -> Prop) (m : M A) : Prop :=
  forall w, R w (snd (m w)).

(** The world with one more subprocess, with one more temporary file that
    is registered for deletion, and with [serial_tty] bound on a class. *)
Definition with_call (w : world) (c : call) : world :=
  mkWorld (classes w) (calls w ++ [c]) (written w) (at_exit w).

Definition with_tmpfile (w : world) (path data : string) : world :=
  mkWorld (classes w) (calls w) (written w ++ [(path, data)])
          (at_exit w ++ [path]).

Definition with_serial_tty (w : world) (c : cls) (e : tty_entry) : world :=
  mkWorld (setattr_serial_tty (classes w) c e) (calls w) (written w)
          (at_exit w).

(** The subprocesses a run of [_make_boot_files] has behind it when it
    looks for the kernel: the boot loader is installed first. *)
Definition loader_calls (c : cls)
  (chroot_dir boot_dir boot_device_or_file mlo : string) : list call :=
  (if installs_mlo c
   then [mkCall [VStr "cp"; VStr "-v"; VStr mlo; VStr boot_dir] true;
         mkCall [VStr "sync"] false]
   else [])
  ++ (match c with
      | Mx51evkConfig =>
          [mkCall [VStr "dd";
                   VStr ("if=" ++ os_path_join chroot_dir
                                    ["usr"; "lib"; "u-boot"; "mx51evk";
                                     "u-boot.imx"]);
                   VStr ("of=" ++ boot_device_or_file);
                   VStr "bs=1024"; VStr "seek=1"; VStr "conv=notrunc"] true]
      | _ => []
      end).

(** The class state after a successful [set_appropriate_serial_tty] on [c]
    for a kernel whose name holds the two digits [g]. *)
Definition resolved (st : class_state) (c : cls) (g : ascii * ascii)
  : class_state :=
  if int_of_group g <? 36
  then setattr_serial_tty (setattr_serial_tty st c TtyDefault) c TtyS2
  else setattr_serial_tty st c TtyDefault.

(** * media_create/tests/fixtures.py: the mocks *)

Module Fixtures.

Section Mocks.

(** The values that attributes hold and that calls receive. *)
Variable V : Type.

(** An object, or a module, as far as [getattr] and [setattr] see it. *)
Definition object : Type := string -> option V.

Definition getattr (obj : object) (name : string) : result V :=
  match obj name with
  | Some v => Ok v
  | None =>
      Raise (AttributeError ("object has no attribute '" ++ name ++ "'"))
  end.











(** [MockCallableWithPositionalArgs]. *)
Record MockCallableWithPositionalArgs : Type := mkCallable {
  callable_calls : option (list (list V));
  return_value : option V
}.

Definition MockCallableWithPositionalArgs_new
  : MockCallableWithPositionalArgs := mkCallable None None.

(** [MockCallableWithPositionalArgs.__call__( *args )]. *)
Definition MockCallableWithPositionalArgs__call__
  (self : MockCallableWithPositionalArgs) (args : list V)
  : MockCallableWithPositionalArgs * option V :=
  let calls := match callable_calls self with
               | None => []
               | Some l => l
               end in
  (mkCallable (Some (calls ++ [args])%list) (return_value self),
   return_value self).


Definition callable_run (self : MockCallableWithPositionalArgs)
  (invocations : list (list V)) : MockCallableWithPositionalArgs :=
  fold_left (fun s args => fst (MockCallableWithPositionalArgs__call__ s args))
            invocations self.


End Mocks.


End Fixtures.

(** * Properties *)

Lemma cls_eqb_eq (a b : cls) : cls_eqb a b = true <-> a = b.
Proof. destruct a, b; simpl; split; congruence. Qed.

Lemma cls_eqb_refl (a : cls) : cls_eqb a a = true.
Proof. now destruct a. Qed.


(** The boards of [board_configs] are the seven concrete classes. *)
Lemma board_configs_concrete (name : string) (c : cls) :
  In (name, c) board_configs -> c <> BoardConfig /\ c <> OmapConfig.
Proof.
  cbn [board_configs In]. intros H.
  repeat (destruct H as [[= <- <-] | H]; [split; discriminate |]).
  destruct H.
Qed.

(** ** Formatting done while the class statements run *)

Lemma class_time_templates :
  mod_format (VStr "console=tty0 console=%s,115200n8") (VStr Ux500_serial_tty)
  = rbind (get_extra_serial_opts loaded Ux500Config) (fun v => Ok (str v))
  /\ mod_format (VStr "serialtty=%s") (VStr Ux500_serial_tty)
     = rbind (get_live_serial_opts loaded Ux500Config) (fun v => Ok (str v))
  /\ mod_format (VStr "console=tty0 console=%s,115200n8")
                (VStr Mx51evk_serial_tty)
     = rbind (get_extra_serial_opts loaded Mx51evkConfig)
             (fun v => Ok (str v))
  /\ mod_format (VStr "serialtty=%s") (VStr Mx51evk_serial_tty)
     = rbind (get_live_serial_opts loaded Mx51evkConfig)
             (fun v => Ok (str v))
  /\ mod_format (VStr "console=tty0 console=%s,38400n8")
                (VStr Vexpress_serial_tty)
     = rbind (get_extra_serial_opts loaded VexpressConfig)
             (fun v => Ok (str v))
  /\ mod_format (VStr "serialtty=%s") (VStr Vexpress_serial_tty)
     = rbind (get_live_serial_opts loaded VexpressConfig)
             (fun v => Ok (str v)).
Proof. repeat split. Qed.

(** ** The partition plan *)

(** C2: the partition-plan constants have the values and the defining
    equations of the plan (sectors of 512 bytes, cylinders of 63 * 255
    sectors), the loader partition ends before the boot partition starts,
    the boot partition is not empty and ends before the root partition
    starts, the starts of the boot and root partitions are multiples of
    [PART_ALIGN_S], and the four assertions of the module hold. *)
Theorem partition_plan_constants :
  PART_ALIGN_S = 8192
  /\ LOADER_PART_START_S = 2
  /\ BOOT_PART_START_S = 16384
  /\ ROOT_PART_START_S = 131072
  /\ LOADER_PART_SIZE_S
     = BOOT_PART_START_S / (63 * 255) * (63 * 255) - LOADER_PART_START_S
  /\ BOOT_PART_SIZE_S
     = ROOT_PART_START_S / (63 * 255) * (63 * 255) - BOOT_PART_START_S
  /\ LOADER_PART_START_S + LOADER_PART_SIZE_S < BOOT_PART_START_S
  /\ BOOT_PART_START_S < BOOT_PART_START_S + BOOT_PART_SIZE_S
  /\ BOOT_PART_START_S + BOOT_PART_SIZE_S < ROOT_PART_START_S
  /\ (PART_ALIGN_S | BOOT_PART_START_S)
  /\ (PART_ALIGN_S | ROOT_PART_START_S)
  /\ forallb (fun b => b) module_asserts = true.
Proof.
  repeat split; try reflexivity.
  - exists 2. reflexivity.
  - exists 16. reflexivity.
Qed.

(** ** The partitioning directive *)

(** C1, as the specification states it, fails: the boot partition of
    [BeagleConfig] (FAT 32, no loader partition) is not 114688 sectors
    long. *)
Lemma get_sfdisk_cmd_beagle_not_114688 :
  getattr BeagleConfig fat_size = Ok (VInt 32)
  /\ getattr BeagleConfig mmc_part_offset = Ok (VInt 0)
  /\ get_sfdisk_cmd BeagleConfig
     <> Ok ("16384,114688,0x0C,*" ++ nl ++ "131072,,,-")
  /\ BOOT_PART_SIZE_S <> 114688.
Proof.
  split; [reflexivity |]. split; [reflexivity |]. split.
  - intro H. vm_compute in H. discriminate H.
  - intro H. vm_compute in H. discriminate H.
Qed.

(** C1, amended: every class with [fat_size = 32] and [mmc_part_offset = 0]
    returns the boot line [16384,112136,0x0C,*] and the root line
    [131072,,,-]: the boot partition ends on the last cylinder boundary
    before the root partition and is 112136 sectors long. *)
Theorem get_sfdisk_cmd_fat32 (c : cls) :
  getattr c fat_size = Ok (VInt 32) ->
  getattr c mmc_part_offset = Ok (VInt 0) ->
  get_sfdisk_cmd c = Ok ("16384,112136,0x0C,*" ++ nl ++ "131072,,,-")
  /\ BOOT_PART_SIZE_S = 112136.
Proof.
  intros Hfat Hoff. split; [| reflexivity].
  destruct c; try discriminate Hfat; try discriminate Hoff; reflexivity.
Qed.

Lemma get_sfdisk_cmd_fat32_witness :
  get_sfdisk_cmd BeagleConfig
  = Ok ("16384,112136,0x0C,*" ++ nl ++ "131072,,,-")
  /\ BOOT_PART_SIZE_S = 112136.
Proof. apply (get_sfdisk_cmd_fat32 BeagleConfig); reflexivity. Defined.

(** C6: a class whose [mmc_part_offset] is positive is [Mx51evkConfig], and
    its directive is the loader line (type [0xDA], at
    [LOADER_PART_START_S], [LOADER_PART_SIZE_S] sectors long) followed by the
    lines of the base layout; a class whose [mmc_part_offset] is 0 emits the
    two lines of the base layout only, none of them a loader line. *)
Theorem get_sfdisk_cmd_loader_line (c : cls) (n : Z) :
  getattr c mmc_part_offset = Ok (VInt n) ->
  exists cmd base type,
    get_sfdisk_cmd c = Ok cmd
    /\ BoardConfig_get_sfdisk_cmd c = Ok base
    /\ splitlines base = [boot_line type; root_line]
    /\ (0 < n <-> c = Mx51evkConfig)
    /\ (0 < n -> splitlines cmd = loader_line :: splitlines base)
    /\ (n = 0 ->
        splitlines cmd = splitlines base
        /\ ~ In loader_line (splitlines cmd)).
Proof.
  intros Hoff.
  pose (t := match attr_value c fat_size with
             | VInt 32 => "0x0C"
             | _ => "0x0E"
             end).
  assert (Hn : n = match c with Mx51evkConfig => 1 | _ => 0 end)
    by (destruct c; vm_compute in Hoff; congruence).
  subst n. clear Hoff.
  destruct c;
    (eexists; eexists; exists t;
     repeat (match goal with |- _ /\ _ => split end);
     [ reflexivity
     | reflexivity
     | vm_compute; reflexivity
     | split; intro H; first [reflexivity | discriminate H | lia]
     | intro H; first [reflexivity | lia]
     | intro H; first [discriminate H
                      | split; [reflexivity |];
                        vm_compute; intros [E | [E | []]]; discriminate E] ]).
Qed.

Lemma get_sfdisk_cmd_loader_line_witness :
  exists cmd base type,
    get_sfdisk_cmd Mx51evkConfig = Ok cmd
    /\ BoardConfig_get_sfdisk_cmd Mx51evkConfig = Ok base
    /\ splitlines base = [boot_line type; root_line]
    /\ (0 < 1 <-> Mx51evkConfig = Mx51evkConfig)
    /\ (0 < 1 -> splitlines cmd = loader_line :: splitlines base)
    /\ (1 = 0 ->
        splitlines cmd = splitlines base
        /\ ~ In loader_line (splitlines cmd)).
Proof. apply (get_sfdisk_cmd_loader_line Mx51evkConfig 1); reflexivity. Defined.

(** C7: in the directive of every class the line of the boot partition,
    which is line number [mmc_part_offset], starts at [BOOT_PART_START_S],
    is [BOOT_PART_SIZE_S] sectors long, ends in [,*] (bootable) and has type
    [0x0C] when [fat_size] is 32 and [0x0E] when it is 16, which it is for
    [VexpressConfig] and for no other class; the root line follows it. *)
Theorem get_sfdisk_cmd_boot_line (c : cls) :
  exists cmd fat offset,
    get_sfdisk_cmd c = Ok cmd
    /\ getattr c fat_size = Ok (VInt fat)
    /\ getattr c mmc_part_offset = Ok (VInt offset)
    /\ (fat = 32 \/ fat = 16)
    /\ (fat = 16 <-> c = VexpressConfig)
    /\ nth_error (splitlines cmd) (Z.to_nat offset)
       = Some (str_int BOOT_PART_START_S ++ "," ++ str_int BOOT_PART_SIZE_S
               ++ "," ++ (if fat =? 32 then "0x0C" else "0x0E") ++ ",*")
    /\ nth_error (splitlines cmd) (S (Z.to_nat offset)) = Some root_line.
Proof.
  destruct c;
    (eexists; eexists; eexists;
     repeat (match goal with |- _ /\ _ => split end);
     [ reflexivity
     | reflexivity
     | reflexivity
     | first [left; reflexivity | right; reflexivity]
     | split; intro H; first [reflexivity | discriminate H]
     | vm_compute; reflexivity
     | vm_compute; reflexivity ]).
Qed.

(** ** Locating a file by pattern *)

(** C9: [_get_file_matching] returns the path when the pattern matches one
    file, and raises [ValueError] when it matches none and when it matches
    more than one; it changes nothing. *)
Theorem _get_file_matching_unique
  (glob : list call -> string -> list string) (regex : string) (w : world) :
  (forall f, glob (calls w) regex = [f] ->
             _get_file_matching glob regex w = (Ok f, w))
  /\ (glob (calls w) regex = [] ->
      exists msg,
        _get_file_matching glob regex w = (Raise (ValueError msg), w))
  /\ ((1 < List.length (glob (calls w) regex))%nat ->
      exists msg,
        _get_file_matching glob regex w = (Raise (ValueError msg), w)).
Proof.
  unfold _get_file_matching, bind, glob_glob.
  repeat split.
  - intros f ->. reflexivity.
  - intros ->. eexists. reflexivity.
  - destruct (glob (calls w) regex) as [| f [| g rest]]; simpl; intros H;
      try lia.
    eexists. reflexivity.
Qed.

Lemma _get_file_matching_unique_witness :
  _get_file_matching (fun _ _ => ["/boot/vmlinuz-2.6.35-22-omap"])
                     "/boot/vmlinuz*" start
  = (Ok "/boot/vmlinuz-2.6.35-22-omap", start)
  /\ (exists msg,
         _get_file_matching (fun _ _ => []) "/boot/vmlinuz*" start
         = (Raise (ValueError msg), start))
  /\ (exists msg,
         _get_file_matching
           (fun _ _ => ["/boot/vmlinuz-2.6.35"; "/boot/vmlinuz-2.6.37"])
           "/boot/vmlinuz*" start
         = (Raise (ValueError msg), start)).
Proof.
  split; [| split].
  - apply (proj1 (_get_file_matching_unique
                    (fun _ _ => ["/boot/vmlinuz-2.6.35-22-omap"])
                    "/boot/vmlinuz*" start)).
    reflexivity.
  - apply (proj1 (proj2 (_get_file_matching_unique
                           (fun _ _ => []) "/boot/vmlinuz*" start))).
    reflexivity.
  - apply (proj2 (proj2 (_get_file_matching_unique
                           (fun _ _ => ["/boot/vmlinuz-2.6.35";
                                        "/boot/vmlinuz-2.6.37"])
                           "/boot/vmlinuz*" start))).
    simpl. lia.
Defined.

(** ** Strings: appending, joining and splitting *)

Lemma append_assoc (a b c : string) : (a ++ b) ++ c = a ++ (b ++ c).
Proof. induction a as [| x a IH]; simpl; [reflexivity | now rewrite IH]. Qed.

Lemma append_nil_r (a : string) : a ++ "" = a.
Proof. induction a as [| x a IH]; simpl; [reflexivity | now rewrite IH]. Qed.

Lemma spaced_app (l1 l2 : list string) :
  spaced (l1 ++ l2) = spaced l1 ++ spaced l2.
Proof.
  induction l1 as [| p l1 IH]; [reflexivity |].
  cbn [spaced List.app]. rewrite IH.
  change (" " ++ p ++ spaced l1 ++ spaced l2)
    with (String " " (p ++ spaced l1 ++ spaced l2)).
  change ((" " ++ p ++ spaced l1) ++ spaced l2)
    with (String " " ((p ++ spaced l1) ++ spaced l2)).
  now rewrite append_assoc.
Qed.

Lemma spaced_join (p : string) (rest : list string) :
  spaced (p :: rest) = " " ++ join " " (p :: rest).
Proof.
  revert p. induction rest as [| q rest IH]; intros p.
  - cbn [spaced join]. now rewrite append_nil_r.
  - change (spaced (p :: q :: rest)) with (" " ++ p ++ spaced (q :: rest)).
    rewrite IH. reflexivity.
Qed.

Lemma spaced_join_app (l : list string) (p : string) (rest : list string) :
  " " ++ join " " (l ++ p :: rest) = spaced (l ++ p :: rest).
Proof.
  destruct l as [| q l]; cbn [List.app]; now rewrite spaced_join.
Qed.

Lemma fold_left_spaced (f : string -> string) (cs : list string)
  (acc : string) :
  fold_left (fun acc console => acc ++ " " ++ f console) cs acc
  = acc ++ spaced (map f cs).
Proof.
  revert acc. induction cs as [| x cs IH]; intros acc.
  - simpl. now rewrite append_nil_r.
  - cbn [fold_left map spaced]. rewrite IH. now rewrite append_assoc.
Qed.

Lemma split_no_newline (s : string) :
  no_newline s = true -> split newline s = [s].
Proof.
  induction s as [| c s IH]; [reflexivity |].
  cbn [no_newline split]. intros H. apply andb_prop in H as [Hc Hs].
  apply negb_true_iff in Hc. rewrite Hc, (IH Hs). reflexivity.
Qed.

Lemma split_line (a b : string) :
  no_newline a = true ->
  split newline (a ++ nl ++ b) = a :: split newline b.
Proof.
  induction a as [| c a IH]; [reflexivity |].
  cbn [no_newline]. intros H. apply andb_prop in H as [Hc Ha].
  apply negb_true_iff in Hc.
  change (String c a ++ nl ++ b) with (String c (a ++ nl ++ b)).
  cbn [split]. rewrite Hc, (IH Ha). reflexivity.
Qed.

Lemma rbind_ok {A B : Type} (r : result A) (k : A -> result B) (b : B) :
  rbind r k = Ok b -> exists a, r = Ok a /\ k a = Ok b.
Proof. destruct r as [a | e]; simpl; [eauto | discriminate]. Qed.

Lemma getattr_attr_value (c : cls) (a : attr) (v : value) :
  getattr c a = Ok v -> attr_value c a = v.
Proof. unfold attr_value. now intros ->. Qed.

(** The attributes that [BoardConfig] binds are there on every class. *)
Lemma getattr_base (c : cls) (a : attr) :
  class_body BoardConfig a <> None -> getattr c a = Ok (attr_value c a).
Proof.
  intros H. destruct a; try (exfalso; apply H; reflexivity);
    destruct c; reflexivity.
Qed.

(** ** The boot command *)

Lemma console_opts_spaced (st : class_state) (c : cls) (is_live : bool)
  (consoles : option (list string)) (tty : value) :
  (is_live = true -> consoles <> None -> get_serial_tty st c = Ok tty) ->
  console_opts st c is_live consoles ""
  = Ok (spaced (console_tokens consoles
                ++ match consoles with
                   | Some _ =>
                       if is_live then ["serialtty=" ++ str tty] else []
                   | None => []
                   end)).
Proof.
  intros Htty. unfold console_opts, console_tokens.
  destruct consoles as [cs |]; [| reflexivity].
  change (fun acc console : string => acc ++ " console=" ++ console)
    with (fun acc console : string =>
            acc ++ " " ++ (fun x => "console=" ++ x) console).
  rewrite fold_left_spaced. cbn [append].
  destruct is_live.
  - rewrite Htty by congruence. cbn [rbind].
    rewrite spaced_app. cbn [spaced]. rewrite append_nil_r. reflexivity.
  - now rewrite app_nil_r.
Qed.

(** The whole text [_get_boot_cmd] returns once the serial options have been
    read. *)
Lemma _get_boot_cmd_text (st : class_state) (c : cls)
  (is_live is_lowmem : bool) (consoles : option (list string))
  (rootfs_uuid : string) (tty extra_serial live_serial : value) :
  (is_live = true -> consoles <> None -> get_serial_tty st c = Ok tty) ->
  get_extra_serial_opts st c = Ok extra_serial ->
  (is_live = true -> get_live_serial_opts st c = Ok live_serial) ->
  _get_boot_cmd st c is_live is_lowmem consoles rootfs_uuid
  = Ok (join nl
          [bootcmd_line c;
           bootargs_line
             (code_bootargs c tty extra_serial live_serial is_live is_lowmem
                            consoles rootfs_uuid);
           "boot"]).
Proof.
  intros Htty Hextra Hlive. unfold _get_boot_cmd.
  rewrite (getattr_base c extra_boot_args_options) by discriminate.
  cbn [rbind].
  rewrite (console_opts_spaced st c is_live consoles tty Htty).
  cbn [rbind]. rewrite Hextra. cbn [rbind].
  rewrite (getattr_base c mmc_option) by discriminate.
  rewrite (getattr_base c kernel_addr) by discriminate.
  rewrite (getattr_base c initrd_addr) by discriminate.
  unfold code_bootargs, bootargs_line, bootcmd_line, boot_args_options.
  rewrite (app_assoc (console_tokens consoles)).
  set (A := (console_tokens consoles ++ _)%list).
  set (o := match attr_value c extra_boot_args_options with
            | VNone => "rootwait ro"
            | _ => "rootwait ro" ++ " "
                   ++ str (attr_value c extra_boot_args_options)
            end).
  assert (Ho : match attr_value c extra_boot_args_options with
               | VNone => "rootwait ro"
               | extra => "rootwait ro " ++ str extra
               end = o)
    by (subst o; now destruct (attr_value c extra_boot_args_options)).
  rewrite Ho. clearbody o A. clear Ho Htty Hextra.
  destruct is_live.
  - rewrite Hlive by reflexivity. cbn [rbind andb].
    cbn [List.app]. rewrite spaced_join_app. rewrite !spaced_app.
    cbn [spaced join]. rewrite !append_nil_r, !append_assoc. reflexivity.
  - cbn [rbind andb List.app]. rewrite spaced_join_app. rewrite !spaced_app.
    cbn [spaced join]. rewrite !append_nil_r, !append_assoc. reflexivity.
Qed.

(** Conversely, [_get_boot_cmd] returns only when it could read the serial
    options it needs. *)
Lemma _get_boot_cmd_reads (st : class_state) (c : cls)
  (is_live is_lowmem : bool) (consoles : option (list string))
  (rootfs_uuid s : string) :
  _get_boot_cmd st c is_live is_lowmem consoles rootfs_uuid = Ok s ->
  exists tty extra_serial live_serial,
    (is_live = true -> consoles <> None -> get_serial_tty st c = Ok tty)
    /\ get_extra_serial_opts st c = Ok extra_serial
    /\ (is_live = true -> get_live_serial_opts st c = Ok live_serial).
Proof.
  unfold _get_boot_cmd. intros H.
  apply rbind_ok in H as (extra & _ & H).
  apply rbind_ok in H as (serial_opts & Hconsole & H).
  apply rbind_ok in H as (extra_serial & Hextra & H).
  apply rbind_ok in H as (live & Hlive & _).
  assert (Htty : exists tty,
             is_live = true -> consoles <> None ->
             get_serial_tty st c = Ok tty).
  { unfold console_opts in Hconsole.
    destruct consoles as [cs |], is_live;
      try (exists VNone; intros; congruence).
    apply rbind_ok in Hconsole as (tty & Htty & _).
    exists tty. intros _ _. exact Htty. }
  destruct Htty as (tty & Htty).
  assert (Hl : exists live_serial,
             is_live = true -> get_live_serial_opts st c = Ok live_serial).
  { destruct is_live; [| exists VNone; intros; congruence].
    apply rbind_ok in Hlive as (live_serial & Hl & _).
    exists live_serial. intros _. exact Hl. }
  destruct Hl as (live_serial & Hl).
  exists tty, extra_serial, live_serial. auto.
Qed.

(** Outside the OMAP family the serial options are plain strings:
    [_get_boot_cmd] returns for every input, the classes as loaded. *)
Lemma _get_boot_cmd_returns (c : cls) (is_live is_lowmem : bool)
  (consoles : option (list string)) (rootfs_uuid : string) :
  is_omap c = false ->
  exists s,
    _get_boot_cmd loaded c is_live is_lowmem consoles rootfs_uuid = Ok s.
Proof.
  intros Hc.
  assert (H : exists tty extra_serial live_serial,
             get_serial_tty loaded c = Ok tty
             /\ get_extra_serial_opts loaded c = Ok extra_serial
             /\ get_live_serial_opts loaded c = Ok live_serial)
    by (destruct c; try discriminate Hc; do 3 eexists; repeat split).
  destruct H as (tty & extra_serial & live_serial & Ht & He & Hl).
  eexists. apply (_get_boot_cmd_text loaded c is_live is_lowmem consoles
                    rootfs_uuid tty extra_serial live_serial); auto.
Qed.

(** In the OMAP family it returns once the serial TTY is bound on the class,
    for Beagle, Panda and Igep; [OveroConfig] has no [_live_serial_opts],
    and its live boot command raises [TypeError]. *)
Lemma _get_boot_cmd_omap (c : cls) (e : tty_entry) (is_live is_lowmem : bool)
  (consoles : option (list string)) (rootfs_uuid : string) :
  In c [BeagleConfig; PandaConfig; IgepConfig; OveroConfig] ->
  e = TtyDefault \/ e = TtyS2 ->
  (c <> OveroConfig \/ is_live = false ->
   exists s,
     _get_boot_cmd (setattr_serial_tty loaded c e) c is_live is_lowmem
                   consoles rootfs_uuid = Ok s)
  /\ (c = OveroConfig -> is_live = true ->
      exists msg,
        _get_boot_cmd (setattr_serial_tty loaded c e) c is_live is_lowmem
                      consoles rootfs_uuid = Raise (TypeError msg)).
Proof.
  intros Hc He. split.
  - intros Hlive.
    assert (H : exists tty extra_serial live_serial,
               get_serial_tty (setattr_serial_tty loaded c e) c = Ok tty
               /\ get_extra_serial_opts (setattr_serial_tty loaded c e) c
                  = Ok extra_serial
               /\ (is_live = true ->
                   get_live_serial_opts (setattr_serial_tty loaded c e) c
                   = Ok live_serial)).
    { cbn [In] in Hc.
      destruct Hc as [<- | [<- | [<- | [<- | []]]]], He as [-> | ->];
        try (do 3 eexists; repeat split; reflexivity).
      all: destruct Hlive as [Hneq | ->]; [now contradiction Hneq |].
      all: eexists; eexists; exists VNone;
        split; [reflexivity | split; [reflexivity | intros H; discriminate H]]. }
    destruct H as (tty & extra_serial & live_serial & Ht & Hx & Hl).
    eexists. apply (_get_boot_cmd_text _ c is_live is_lowmem consoles
                      rootfs_uuid tty extra_serial live_serial); auto.
  - intros -> ->. unfold _get_boot_cmd.
    destruct consoles as [cs |], He as [-> | ->]; eexists; reflexivity.
Qed.

Lemma no_newline_app (a b : string) :
  no_newline (a ++ b) = (no_newline a && no_newline b)%bool.
Proof.
  induction a as [| x a IH]; [reflexivity |].
  cbn [append no_newline]. rewrite IH. now rewrite andb_assoc.
Qed.

Lemma bootcmd_line_no_newline (c : cls) : no_newline (bootcmd_line c) = true.
Proof. destruct c; vm_compute; reflexivity. Qed.

Lemma three_lines (l1 l2 : string) :
  no_newline l1 = true -> no_newline l2 = true ->
  splitlines (join nl [l1; l2; "boot"]) = [l1; l2; "boot"].
Proof.
  intros H1 H2. unfold splitlines. cbn [join].
  rewrite (split_line l1 _ H1), (split_line l2 _ H2). reflexivity.
Qed.

(** C3, as the specification states it, fails.  For [VexpressConfig], not
    live, without consoles, the boot arguments start with a space and have
    two spaces where the low-memory option would be; for [Mx51evkConfig],
    live and low on memory, without consoles, no [serialtty=] part precedes
    the extra serial options, so the text is not the join of the
    specification even after a leading space. *)
Lemma _get_boot_cmd_not_single_space_join :
  (get_serial_tty loaded VexpressConfig = Ok (VStr "ttyAMA0")
   /\ get_extra_serial_opts loaded VexpressConfig
      = Ok (VStr "console=tty0 console=ttyAMA0,38400n8")
   /\ get_live_serial_opts loaded VexpressConfig
      = Ok (VStr "serialtty=ttyAMA0")
   /\ _get_boot_cmd loaded VexpressConfig false false None "deadbeef"
      = Ok (join nl
              [bootcmd_line VexpressConfig;
               bootargs_line
                 (" console=tty0 console=ttyAMA0,38400n8 "
                  ++ " root=UUID=deadbeef rootwait ro");
               "boot"])
   /\ spec_bootargs VexpressConfig (VStr "ttyAMA0")
        (VStr "console=tty0 console=ttyAMA0,38400n8")
        (VStr "serialtty=ttyAMA0") false false None "deadbeef"
      = "console=tty0 console=ttyAMA0,38400n8 root=UUID=deadbeef rootwait ro"
   /\ _get_boot_cmd loaded VexpressConfig false false None "deadbeef"
      <> Ok (join nl
               [bootcmd_line VexpressConfig;
                bootargs_line
                  (spec_bootargs VexpressConfig (VStr "ttyAMA0")
                     (VStr "console=tty0 console=ttyAMA0,38400n8")
                     (VStr "serialtty=ttyAMA0") false false None "deadbeef");
                "boot"]))
  /\ (get_serial_tty loaded Mx51evkConfig = Ok (VStr "ttymxc0")
      /\ get_extra_serial_opts loaded Mx51evkConfig
         = Ok (VStr "console=tty0 console=ttymxc0,115200n8")
      /\ get_live_serial_opts loaded Mx51evkConfig
         = Ok (VStr "serialtty=ttymxc0")
      /\ _get_boot_cmd loaded Mx51evkConfig true true None "deadbeef"
         = Ok (join nl
                 [bootcmd_line Mx51evkConfig;
                  bootargs_line
                    (" console=tty0 console=ttymxc0,115200n8 "
                     ++ "serialtty=ttymxc0 only-ubiquity boot=casper "
                     ++ "rootwait ro");
                  "boot"])
      /\ _get_boot_cmd loaded Mx51evkConfig true true None "deadbeef"
         <> Ok (join nl
                  [bootcmd_line Mx51evkConfig;
                   bootargs_line
                     (" " ++
                      spec_bootargs Mx51evkConfig (VStr "ttymxc0")
                        (VStr "console=tty0 console=ttymxc0,115200n8")
                        (VStr "serialtty=ttymxc0") true true None
                        "deadbeef");
                   "boot"])).
Proof.
  split.
  - repeat (split; [reflexivity |]).
    intro H. vm_compute in H. discriminate H.
  - repeat (split; [reflexivity |]).
    intro H. vm_compute in H. discriminate H.
Qed.

(** C3, amended: whenever the serial options it needs can be read (the
    serial TTY when live with a list of consoles, the extra serial options,
    the live serial options when live), [_get_boot_cmd] returns the boot
    command whose boot arguments are a space followed by the single-space
    join of: [console=<c>] for each console; [serialtty=<serial_tty>] when
    live and given a list of consoles; the extra serial options; when live,
    the live serial options; the low-memory option, which is [only-ubiquity]
    when live and low on memory and the empty string otherwise;
    [root=UUID=<rootfs_uuid>] when not live and [boot=casper] when live;
    [rootwait ro] followed by the class's extra boot arguments.  And
    whatever [_get_boot_cmd] returns is of that form. *)
Theorem _get_boot_cmd_bootargs (st : class_state) (c : cls)
  (is_live is_lowmem : bool) (consoles : option (list string))
  (rootfs_uuid : string) :
  (forall tty extra_serial live_serial,
      (is_live = true -> consoles <> None -> get_serial_tty st c = Ok tty) ->
      get_extra_serial_opts st c = Ok extra_serial ->
      (is_live = true -> get_live_serial_opts st c = Ok live_serial) ->
      _get_boot_cmd st c is_live is_lowmem consoles rootfs_uuid
      = Ok (join nl
              [bootcmd_line c;
               bootargs_line
                 (code_bootargs c tty extra_serial live_serial is_live
                                is_lowmem consoles rootfs_uuid);
               "boot"]))
  /\ (forall s,
         _get_boot_cmd st c is_live is_lowmem consoles rootfs_uuid = Ok s ->
         exists tty extra_serial live_serial,
           s = join nl
                 [bootcmd_line c;
                  bootargs_line
                    (code_bootargs c tty extra_serial live_serial is_live
                                   is_lowmem consoles rootfs_uuid);
                  "boot"]).
Proof.
  split.
  - intros tty extra_serial live_serial. apply _get_boot_cmd_text.
  - intros s H.
    destruct (_get_boot_cmd_reads _ _ _ _ _ _ _ H)
      as (tty & extra_serial & live_serial & Htty & Hextra & Hlive).
    exists tty, extra_serial, live_serial.
    rewrite (_get_boot_cmd_text _ _ _ is_lowmem _ rootfs_uuid _ _ _
               Htty Hextra Hlive) in H.
    congruence.
Qed.

Lemma _get_boot_cmd_bootargs_witness :
  _get_boot_cmd loaded Mx51evkConfig true false (Some ["ttyS0"; "tty1"])
                "deadbeef"
  = Ok (join nl
          [bootcmd_line Mx51evkConfig;
           bootargs_line
             (" console=ttyS0 console=tty1 serialtty=ttymxc0 "
              ++ "console=tty0 console=ttymxc0,115200n8 serialtty=ttymxc0 "
              ++ " boot=casper rootwait ro");
           "boot"]).
Proof.
  apply (proj1 (_get_boot_cmd_bootargs loaded Mx51evkConfig true false
                  (Some ["ttyS0"; "tty1"]) "deadbeef")
           (VStr "ttymxc0") (VStr "console=tty0 console=ttymxc0,115200n8")
           (VStr "serialtty=ttymxc0"));
    reflexivity.
Defined.

(** C8: whatever [_get_boot_cmd] returns is three lines joined by newlines:
    the [setenv bootcmd] line that loads the kernel image to [kernel_addr]
    and the initrd image to [initrd_addr] from the MMC slot [mmc_option] and
    ends with [bootm]; the [setenv bootargs] line quoting the boot
    arguments; the line [boot].  The first line holds no newline, and when
    the boot arguments hold none either, splitting the text at newlines
    gives these three lines. *)
Theorem _get_boot_cmd_three_lines (st : class_state) (c : cls)
  (is_live is_lowmem : bool) (consoles : option (list string))
  (rootfs_uuid s : string) :
  _get_boot_cmd st c is_live is_lowmem consoles rootfs_uuid = Ok s ->
  exists tty extra_serial live_serial bootargs,
    bootargs = code_bootargs c tty extra_serial live_serial is_live is_lowmem
                             consoles rootfs_uuid
    /\ s = bootcmd_line c ++ nl ++ bootargs_line bootargs ++ nl ++ "boot"
    /\ bootcmd_line c
       = "setenv bootcmd 'fatload mmc " ++ str (attr_value c mmc_option)
         ++ " " ++ str (attr_value c kernel_addr) ++ " uImage; fatload mmc "
         ++ str (attr_value c mmc_option) ++ " "
         ++ str (attr_value c initrd_addr) ++ " uInitrd; bootm "
         ++ str (attr_value c kernel_addr) ++ " "
         ++ str (attr_value c initrd_addr) ++ "'"
    /\ bootargs_line bootargs = "setenv bootargs '" ++ bootargs ++ "'"
    /\ no_newline (bootcmd_line c) = true
    /\ (no_newline bootargs = true ->
        splitlines s = [bootcmd_line c; bootargs_line bootargs; "boot"]).
Proof.
  intros H.
  destruct (_get_boot_cmd_reads _ _ _ _ _ _ _ H)
    as (tty & extra_serial & live_serial & Htty & Hextra & Hlive).
  rewrite (_get_boot_cmd_text _ _ _ is_lowmem _ rootfs_uuid _ _ _
             Htty Hextra Hlive) in H.
  set (bootargs := code_bootargs c tty extra_serial live_serial is_live
                                 is_lowmem consoles rootfs_uuid) in *.
  assert (Hs : s = join nl [bootcmd_line c; bootargs_line bootargs; "boot"])
    by congruence.
  clear H. subst s.
  exists tty, extra_serial, live_serial, bootargs.
  split; [reflexivity |].
  split; [reflexivity |].
  split; [reflexivity |].
  split; [reflexivity |].
  split; [apply bootcmd_line_no_newline |].
  intros Hargs.
  apply (three_lines (bootcmd_line c) (bootargs_line bootargs));
    [apply bootcmd_line_no_newline |].
  unfold bootargs_line. rewrite !no_newline_app, Hargs. reflexivity.
Qed.

Lemma _get_boot_cmd_three_lines_witness :
  exists tty extra_serial live_serial bootargs,
    bootargs = code_bootargs VexpressConfig tty extra_serial live_serial
                             false false None "deadbeef"
    /\ ("setenv bootcmd 'fatload mmc 0:1 0x60008000 uImage; "
        ++ "fatload mmc 0:1 0x81000000 uInitrd; "
        ++ "bootm 0x60008000 0x81000000'" ++ nl
        ++ "setenv bootargs ' console=tty0 console=ttyAMA0,38400n8  "
        ++ "root=UUID=deadbeef rootwait ro'" ++ nl ++ "boot")
       = bootcmd_line VexpressConfig ++ nl ++ bootargs_line bootargs ++ nl
         ++ "boot"
    /\ bootcmd_line VexpressConfig
       = "setenv bootcmd 'fatload mmc "
         ++ str (attr_value VexpressConfig mmc_option)
         ++ " " ++ str (attr_value VexpressConfig kernel_addr)
         ++ " uImage; fatload mmc "
         ++ str (attr_value VexpressConfig mmc_option) ++ " "
         ++ str (attr_value VexpressConfig initrd_addr) ++ " uInitrd; bootm "
         ++ str (attr_value VexpressConfig kernel_addr) ++ " "
         ++ str (attr_value VexpressConfig initrd_addr) ++ "'"
    /\ bootargs_line bootargs = "setenv bootargs '" ++ bootargs ++ "'"
    /\ no_newline (bootcmd_line VexpressConfig) = true
    /\ (no_newline bootargs = true ->
        splitlines
          ("setenv bootcmd 'fatload mmc 0:1 0x60008000 uImage; "
           ++ "fatload mmc 0:1 0x81000000 uInitrd; "
           ++ "bootm 0x60008000 0x81000000'" ++ nl
           ++ "setenv bootargs ' console=tty0 console=ttyAMA0,38400n8  "
           ++ "root=UUID=deadbeef rootwait ro'" ++ nl ++ "boot")
        = [bootcmd_line VexpressConfig; bootargs_line bootargs; "boot"]).
Proof.
  apply (_get_boot_cmd_three_lines loaded VexpressConfig false false None
           "deadbeef").
  reflexivity.
Defined.

(** ** The serial TTY of the OMAP family *)

Lemma lookup_in_ext {A : Type} (f g : cls -> option A) (l : list cls) :
  (forall k, In k l -> f k = g k) -> lookup_in f l = lookup_in g l.
Proof.
  induction l as [| k l IH]; intros H; [reflexivity |].
  cbn [lookup_in]. rewrite (H k) by (left; reflexivity).
  rewrite IH; [reflexivity |]. intros k' Hk'. apply H. now right.
Qed.

(** An assignment to [c.serial_tty] is what a read on [c] finds. *)
Lemma lookup_in_setattr_self (st : class_state) (c : cls) (e : tty_entry) :
  lookup_in (setattr_serial_tty st c e) (mro c) = Some e.
Proof. destruct c; reflexivity. Qed.

(** The regular expression of [set_appropriate_serial_tty] finds its group
    where the text says so: after a prefix without newline, [2.6.] and two
    decimal digits. *)
Lemma re_match_minor_sound (s : string) (d1 d2 : ascii) :
  re_match_minor s = Some (d1, d2) ->
  exists before rest,
    s = before ++ "2.6." ++ String d1 (String d2 rest)
    /\ no_newline before = true
    /\ is_digit d1 = true /\ is_digit d2 = true.
Proof.
  induction s as [| c s IH]; [discriminate |].
  cbn [re_match_minor].
  destruct (Ascii.eqb c newline) eqn:Hc; [discriminate |].
  destruct (re_match_minor s) as [g |] eqn:Hs.
  - intros [= ->]. destruct (IH eq_refl) as (before & rest & -> & Hb & Hd).
    exists (String c before), rest. cbn [no_newline append].
    rewrite Hc, Hb. auto.
  - clear IH Hs. unfold match_2_6_at.
    destruct c as [[] [] [] [] [] [] [] []]; try discriminate.
    destruct s as [| [[] [] [] [] [] [] [] []] s]; try discriminate.
    destruct s as [| [[] [] [] [] [] [] [] []] s]; try discriminate.
    destruct s as [| [[] [] [] [] [] [] [] []] s]; try discriminate.
    destruct s as [| e1 s]; try discriminate.
    destruct s as [| e2 s]; try discriminate.
    destruct (is_digit e1) eqn:H1; [| discriminate].
    destruct (is_digit e2) eqn:H2; [| discriminate].
    intros [= <- <-]. exists "", s. auto.
Qed.

(** C5: for a class of the OMAP family, as long as [serial_tty] is bound as
    at load time on the classes it inherits from, reading [serial_tty],
    [extra_serial_opts] or [live_serial_opts] raises the [AttributeError] of
    the descriptor; and when [boot/vmlinuz*] under [chroot_dir] matches one
    file whose name holds [2.6.] and two digits,
    [set_appropriate_serial_tty] succeeds, runs no subprocess, and leaves
    [serial_tty] reading [ttyS2] when the two digits are a number below 36 and
    the class's [_serial_tty] otherwise. *)
Theorem set_appropriate_serial_tty_resolves
  (glob : list call -> string -> list string) (c : cls)
  (chroot_dir : string) :
  is_omap c = true ->
  (forall st,
      (forall k, In k (mro c) -> st k = loaded k) ->
      get_serial_tty st c = Raise (AttributeError unset_message)
      /\ get_extra_serial_opts st c = Raise (AttributeError unset_message)
      /\ get_live_serial_opts st c = Raise (AttributeError unset_message))
  /\ (forall w vmlinuz minor,
         glob (calls w) (os_path_join chroot_dir ["boot"; "vmlinuz*"])
         = [vmlinuz] ->
         re_match_minor (os_path_basename vmlinuz) = Some minor ->
         exists w',
           set_appropriate_serial_tty glob c chroot_dir w = (Ok tt, w')
           /\ calls w' = calls w
           /\ get_serial_tty (classes w') c
              = (if int_of_group minor <? 36 then Ok (VStr "ttyS2")
                 else getattr c _serial_tty)).
Proof.
  intros Homap. split.
  - intros st Hst.
    assert (Htty : get_serial_tty st c = Raise (AttributeError unset_message)).
    { unfold get_serial_tty. rewrite (lookup_in_ext st loaded _ Hst).
      destruct c; try discriminate Homap; reflexivity. }
    split; [exact Htty |].
    unfold get_extra_serial_opts, get_live_serial_opts, serial_opts_getter.
    rewrite Htty.
    destruct c; try discriminate Homap; split; reflexivity.
  - intros w vmlinuz minor Hglob Hminor.
    unfold set_appropriate_serial_tty. rewrite Homap.
    unfold bind at 1. cbn [set_serial_tty].
    unfold bind at 1. unfold _get_file_matching at 1.
    unfold bind at 1. unfold glob_glob. cbn [calls]. rewrite Hglob.
    cbn [ret]. rewrite Hminor.
    destruct (int_of_group minor <? 36).
    + eexists. split; [reflexivity |]. split; [reflexivity |].
      cbn [classes]. unfold get_serial_tty.
      now rewrite lookup_in_setattr_self.
    + eexists. split; [reflexivity |]. split; [reflexivity |].
      cbn [classes]. unfold get_serial_tty.
      now rewrite lookup_in_setattr_self.
Qed.

Lemma set_appropriate_serial_tty_resolves_witness :
  (get_serial_tty loaded BeagleConfig = Raise (AttributeError unset_message)
   /\ get_extra_serial_opts loaded BeagleConfig
      = Raise (AttributeError unset_message)
   /\ get_live_serial_opts loaded BeagleConfig
      = Raise (AttributeError unset_message))
  /\ (exists w',
         set_appropriate_serial_tty
           (fun _ _ => ["/chroot/boot/vmlinuz-2.6.35-1000-linaro-omap"])
           BeagleConfig "/chroot" start
         = (Ok tt, w')
         /\ calls w' = calls start
         /\ get_serial_tty (classes w') BeagleConfig = Ok (VStr "ttyS2"))
  /\ (exists w',
         set_appropriate_serial_tty
           (fun _ _ => ["/chroot/boot/vmlinuz-2.6.37-1000-linaro-omap"])
           BeagleConfig "/chroot" start
         = (Ok tt, w')
         /\ calls w' = calls start
         /\ get_serial_tty (classes w') BeagleConfig = Ok (VStr "ttyO2")).
Proof.
  split; [| split].
  - apply (proj1 (set_appropriate_serial_tty_resolves
                    (fun _ _ => []) BeagleConfig "/chroot" eq_refl)).
    intros k _. reflexivity.
  - apply (proj2 (set_appropriate_serial_tty_resolves
                    (fun _ _ =>
                       ["/chroot/boot/vmlinuz-2.6.35-1000-linaro-omap"])
                    BeagleConfig "/chroot" eq_refl)
             start "/chroot/boot/vmlinuz-2.6.35-1000-linaro-omap"
             ("3"%char, "5"%char));
      reflexivity.
  - apply (proj2 (set_appropriate_serial_tty_resolves
                    (fun _ _ =>
                       ["/chroot/boot/vmlinuz-2.6.37-1000-linaro-omap"])
                    BeagleConfig "/chroot" eq_refl)
             start "/chroot/boot/vmlinuz-2.6.37-1000-linaro-omap"
             ("3"%char, "7"%char));
      reflexivity.
Defined.

(** The binding is made on the class the method is called on, and a class
    reads the binding of the nearest class it inherits from: resolving
    [BeagleConfig] resolves [IgepConfig], which has no binding of its own,
    and leaves [PandaConfig] unresolved. *)
Lemma set_appropriate_serial_tty_inherited :
  let w := snd (set_appropriate_serial_tty example_glob BeagleConfig
                  "/chroot" start) in
  get_serial_tty (classes w) BeagleConfig = Ok (VStr "ttyS2")
  /\ get_serial_tty (classes w) IgepConfig = Ok (VStr "ttyS2")
  /\ get_serial_tty (classes w) PandaConfig
     = Raise (AttributeError unset_message).
Proof. repeat split. Qed.

(** ** The subprocesses of the boot-file builders *)

Lemma after_after (w : world) (l1 l2 : list call)
  (f1 f2 : list (string * string)) (h1 h2 : list string) :
  after (after w l1 f1 h1) l2 f2 h2
  = after w (l1 ++ l2) (f1 ++ f2) (h1 ++ h2).
Proof. unfold after. cbn. now rewrite <- !app_assoc. Qed.

Lemma after_nil (w : world) : after w [] [] [] = w.
Proof. destruct w. unfold after. cbn. now rewrite !app_nil_r. Qed.

Lemma bind_ok {A B : Type} (m : M A) (k : A -> M B) (w w1 : world) (a : A) :
  m w = (Ok a, w1) -> bind m k w = k a w1.
Proof. unfold bind. now intros ->. Qed.

Section Success.

Variable glob : list call -> string -> list string.
Variable exit_status : list call -> call -> Z.
Variable mkstemp : list (string * string) -> string.

(** Every subprocess succeeds. *)
Hypothesis exits_zero : forall h call, exit_status h call = 0.

Lemma run_wait_ok (cmd : list value) (root : bool) (w : world) :
  bind (cmd_runner_run exit_status cmd root) proc_wait w
  = (Ok 0, after w [mkCall cmd root] [] []).
Proof.
  unfold bind, cmd_runner_run, proc_wait, after. rewrite exits_zero.
  cbn. now rewrite !app_nil_r.
Qed.

Lemma _run_mkimage_ok (img_type : string) (load entry : value)
  (name img_data img : string) (w : world) :
  _run_mkimage exit_status img_type load entry name img_data img w
  = (Ok 0, after w [mkimage_call img_type load load name img_data img] [] []).
Proof. unfold _run_mkimage. apply run_wait_ok. Qed.

Lemma _get_file_matching_ok (regex f : string) (w : world) :
  glob (calls w) regex = [f] -> _get_file_matching glob regex w = (Ok f, w).
Proof.
  intros H. unfold _get_file_matching, bind, glob_glob. now rewrite H.
Qed.

Lemma make_uImage_ok (load : value) (dir : string) (suffix : value)
  (boot_disk kernel : string) (w : world) :
  glob (calls w) (dir ++ "/vmlinuz-*-" ++ str suffix) = [kernel] ->
  make_uImage glob exit_status load dir suffix boot_disk w
  = (Ok 0,
     after w [mkimage_call "kernel" load load "Linux" kernel
                           (boot_disk ++ "/uImage")] [] []).
Proof.
  intros H. unfold make_uImage.
  rewrite (bind_ok _ _ _ _ _ (_get_file_matching_ok _ _ _ H)).
  apply _run_mkimage_ok.
Qed.

Lemma make_uInitrd_ok (dir : string) (suffix : value)
  (boot_disk initrd : string) (w : world) :
  glob (calls w) (dir ++ "/initrd.img-*-" ++ str suffix) = [initrd] ->
  make_uInitrd glob exit_status dir suffix boot_disk w
  = (Ok 0,
     after w [mkimage_call "ramdisk" (VStr "0") (VStr "0") "initramfs"
                           initrd (boot_disk ++ "/uInitrd")] [] []).
Proof.
  intros H. unfold make_uInitrd.
  rewrite (bind_ok _ _ _ _ _ (_get_file_matching_ok _ _ _ H)).
  apply _run_mkimage_ok.
Qed.

Lemma make_boot_script_ok (data boot_script : string) (w : world) :
  make_boot_script exit_status mkstemp data boot_script w
  = (Ok 0,
     after w [mkimage_call "script" (VStr "0") (VStr "0") "boot script"
                           (mkstemp (written w)) boot_script]
           [(mkstemp (written w), data)] [mkstemp (written w)]).
Proof.
  unfold make_boot_script, tempfile_mkstemp, atexit_register_unlink,
    write_file.
  unfold bind at 1. unfold bind at 1. unfold bind at 1.
  rewrite _run_mkimage_ok. unfold after. cbn. now rewrite !app_nil_r.
Qed.

Lemma make_boot_ini_ok (boot_script boot_disk : string) (w : world) :
  make_boot_ini exit_status boot_script boot_disk w
  = (Ok tt, after w [boot_ini_call boot_script boot_disk] [] []).
Proof.
  unfold make_boot_ini.
  unfold bind, cmd_runner_run, proc_wait, after, boot_ini_call, ret.
  rewrite exits_zero. cbn. now rewrite !app_nil_r.
Qed.

Lemma install_mx51evk_boot_loader_ok (imx_file dev : string) (w : world) :
  install_mx51evk_boot_loader exit_status imx_file dev w
  = (Ok tt,
     after w [mkCall [VStr "dd"; VStr ("if=" ++ imx_file);
                      VStr ("of=" ++ dev); VStr "bs=1024"; VStr "seek=1";
                      VStr "conv=notrunc"] true] [] []).
Proof.
  unfold install_mx51evk_boot_loader, bind, cmd_runner_run, proc_wait, after,
    ret.
  rewrite exits_zero. cbn. now rewrite !app_nil_r.
Qed.

Lemma install_omap_boot_loader_ok (chroot_dir boot_disk mlo : string)
  (w : world) :
  _get_mlo_file glob chroot_dir w = (Ok mlo, w) ->
  install_omap_boot_loader glob exit_status chroot_dir boot_disk w
  = (Ok tt,
     after w [mkCall [VStr "cp"; VStr "-v"; VStr mlo; VStr boot_disk] true;
              mkCall [VStr "sync"] false] [] []).
Proof.
  intros H. unfold install_omap_boot_loader.
  rewrite (bind_ok _ _ _ _ _ H).
  unfold bind, cmd_runner_run, proc_wait, after, ret.
  rewrite exits_zero. cbn. rewrite exits_zero. cbn.
  now rewrite !app_nil_r, <- !app_assoc.
Qed.

End Success.

Lemma _get_mlo_file_ok (glob : list call -> string -> list string)
  (chroot_dir mlo : string) (w : world) :
  mlo_found glob chroot_dir mlo ->
  _get_mlo_file glob chroot_dir w = (Ok mlo, w).
Proof.
  intros H. unfold _get_mlo_file, bind, glob_glob.
  destruct (H (calls w)) as [-> | [-> ->]]; reflexivity.
Qed.

Ltac run_step Hexit Hmlo Hkernel Hinitrd :=
  erewrite bind_ok;
  [ | first [ apply install_omap_boot_loader_ok;
              [exact Hexit | apply _get_mlo_file_ok; apply Hmlo; reflexivity]
            | apply install_mx51evk_boot_loader_ok; exact Hexit
            | apply make_uImage_ok; [exact Hexit | apply Hkernel]
            | apply make_uInitrd_ok; [exact Hexit | apply Hinitrd]
            | apply make_boot_script_ok; exact Hexit
            | apply make_boot_ini_ok; exact Hexit
            | reflexivity ] ].

(** A run of [_make_boot_files] in such an environment: it returns, and has
    run [expected_calls]. *)
Lemma _make_boot_files_ok (glob : list call -> string -> list string)
  (exit_status : list call -> call -> Z)
  (mkstemp : list (string * string) -> string) (c : cls)
  (uboot_parts_dir boot_cmd chroot_dir boot_dir boot_script
   boot_device_or_file mlo kernel initrd : string) (w : world) :
  c <> BoardConfig ->
  builds glob exit_status c uboot_parts_dir chroot_dir mlo kernel initrd ->
  exists w',
    _make_boot_files glob exit_status mkstemp c uboot_parts_dir boot_cmd
                     chroot_dir boot_dir boot_script boot_device_or_file w
    = (Ok tt, w')
    /\ calls w'
       = (calls w
          ++ expected_calls c uboot_parts_dir chroot_dir boot_dir boot_script
                            boot_device_or_file mlo kernel initrd
                            (mkstemp (written w)))%list
    /\ classes w' = classes w
    /\ written w'
       = (written w
          ++ (if makes_boot_script c
              then [(mkstemp (written w), boot_cmd)] else []))%list.
Proof.
  intros Hc (Hexit & Hmlo & Hkernel & Hinitrd).
  destruct c; try (exfalso; apply Hc; reflexivity);
    cbn [_make_boot_files];
    unfold OmapConfig__make_boot_files, IgepConfig__make_boot_files,
      Ux500Config__make_boot_files, Mx51evkConfig__make_boot_files,
      VexpressConfig__make_boot_files;
    repeat run_step Hexit Hmlo Hkernel Hinitrd.
  all: try (rewrite make_boot_ini_ok by exact Hexit).
  all: rewrite ?after_after.
  all: eexists; split; [reflexivity |].
  all: unfold after; cbn; rewrite ?app_nil_r; repeat split; reflexivity.
Qed.

(** ** What every run adds to the subprocesses, however it ends *)

Section Adds.

Variable glob : list call -> string -> list string.
Variable exit_status : list call -> call -> Z.
Variable mkstemp : list (string * string) -> string.
Variable P : call -> Prop.

Lemma adds_same {A : Type} (m : M A) :
  (forall w, calls (snd (m w)) = calls w) -> adds P m.
Proof.
  intros H w. exists []. rewrite H, app_nil_r. split; [reflexivity | constructor].
Qed.

Lemma adds_ret {A : Type} (a : A) : adds P (ret a).
Proof. now apply adds_same. Qed.

Lemma adds_raise {A : Type} (e : exn) : adds P (@raise A e).
Proof. now apply adds_same. Qed.

Lemma adds_lift {A : Type} (r : result A) : adds P (lift r).
Proof. now apply adds_same. Qed.

Lemma adds_bind_lift {A B : Type} (r : result A) (k : A -> M B) :
  (forall a, r = Ok a -> adds P (k a)) -> adds P (bind (lift r) k).
Proof.
  intros Hk w. unfold bind, lift.
  destruct r as [a | e]; [now apply Hk |].
  exists []. cbn. rewrite app_nil_r. split; [reflexivity | constructor].
Qed.

Lemma adds_bind {A B : Type} (m : M A) (k : A -> M B) :
  adds P m -> (forall a, adds P (k a)) -> adds P (bind m k).
Proof.
  intros Hm Hk w. unfold bind.
  destruct (Hm w) as (l1 & E1 & F1).
  destruct (m w) as [[a | e] w1]; cbn [snd] in *.
  - destruct (Hk a w1) as (l2 & E2 & F2).
    exists (l1 ++ l2)%list. rewrite E2, E1, app_assoc.
    split; [reflexivity | now apply Forall_app].
  - exists l1. now split.
Qed.

Lemma adds_run (cmd : list value) (root : bool) :
  P (mkCall cmd root) -> adds P (cmd_runner_run exit_status cmd root).
Proof.
  intros H w. exists [mkCall cmd root]. split; [reflexivity |].
  now constructor.
Qed.

Lemma adds_wait (proc : call * Z) : adds P (proc_wait proc).
Proof.
  destruct proc as [c rc]. unfold proc_wait.
  destruct (rc =? 0); [apply adds_ret | apply adds_raise].
Qed.

Lemma adds__get_file_matching (regex : string) :
  adds P (_get_file_matching glob regex).
Proof.
  unfold _get_file_matching. apply adds_bind; [now apply adds_same |].
  intros [| f [| g rest]]; first [apply adds_ret | apply adds_raise].
Qed.

Lemma adds__run_mkimage (img_type : string) (load entry : value)
  (name img_data img : string) :
  P (mkimage_call img_type load load name img_data img) ->
  adds P (_run_mkimage exit_status img_type load entry name img_data img).
Proof.
  intros H. unfold _run_mkimage.
  apply adds_bind; [now apply adds_run | apply adds_wait].
Qed.

Lemma adds_make_uImage (load : value) (dir : string) (suffix : value)
  (boot_disk : string) :
  (forall img_data,
      P (mkimage_call "kernel" load load "Linux" img_data
                      (boot_disk ++ "/uImage"))) ->
  adds P (make_uImage glob exit_status load dir suffix boot_disk).
Proof.
  intros H. unfold make_uImage.
  apply adds_bind; [apply adds__get_file_matching |].
  intros img_data. now apply adds__run_mkimage.
Qed.

Lemma adds_make_uInitrd (dir : string) (suffix : value)
  (boot_disk : string) :
  (forall img_data,
      P (mkimage_call "ramdisk" (VStr "0") (VStr "0") "initramfs" img_data
                      (boot_disk ++ "/uInitrd"))) ->
  adds P (make_uInitrd glob exit_status dir suffix boot_disk).
Proof.
  intros H. unfold make_uInitrd.
  apply adds_bind; [apply adds__get_file_matching |].
  intros img_data. now apply adds__run_mkimage.
Qed.

Lemma adds_make_boot_script (data boot_script : string) :
  (forall tmpfile,
      P (mkimage_call "script" (VStr "0") (VStr "0") "boot script" tmpfile
                      boot_script)) ->
  adds P (make_boot_script exit_status mkstemp data boot_script).
Proof.
  intros H. unfold make_boot_script.
  apply adds_bind; [now apply adds_same |]. intros tmpfile.
  apply adds_bind; [now apply adds_same |]. intros _.
  apply adds_bind; [now apply adds_same |]. intros _.
  now apply adds__run_mkimage.
Qed.

Lemma adds_install_mx51evk_boot_loader (imx_file dev : string) :
  P (mkCall [VStr "dd"; VStr ("if=" ++ imx_file); VStr ("of=" ++ dev);
             VStr "bs=1024"; VStr "seek=1"; VStr "conv=notrunc"] true) ->
  adds P (install_mx51evk_boot_loader exit_status imx_file dev).
Proof.
  intros H. unfold install_mx51evk_boot_loader.
  apply adds_bind; [now apply adds_run |]. intros proc.
  apply adds_bind; [apply adds_wait |]. intros _. apply adds_ret.
Qed.

Lemma adds_install_omap_boot_loader (chroot_dir boot_disk : string) :
  (forall mlo,
      P (mkCall [VStr "cp"; VStr "-v"; VStr mlo; VStr boot_disk] true)) ->
  P (mkCall [VStr "sync"] false) ->
  adds P (install_omap_boot_loader glob exit_status chroot_dir boot_disk).
Proof.
  intros Hcp Hsync. unfold install_omap_boot_loader.
  apply adds_bind.
  { unfold _get_mlo_file. apply adds_bind; [now apply adds_same |].
    intros files. apply adds_bind.
    - destruct files; [now apply adds_same | apply adds_ret].
    - intros [| f [| g rest]]; first [apply adds_ret | apply adds_raise]. }
  intros mlo. apply adds_bind; [now apply adds_run |]. intros proc.
  apply adds_bind; [apply adds_wait |]. intros _.
  apply adds_bind; [now apply adds_run |]. intros proc'.
  apply adds_bind; [apply adds_wait |]. intros _. apply adds_ret.
Qed.

Lemma adds_make_boot_ini (boot_script boot_disk : string) :
  P (boot_ini_call boot_script boot_disk) ->
  adds P (make_boot_ini exit_status boot_script boot_disk).
Proof.
  intros H. unfold make_boot_ini.
  apply adds_bind; [now apply adds_run |]. intros proc.
  apply adds_bind; [apply adds_wait |]. intros _. apply adds_ret.
Qed.

End Adds.

Lemma adds_weaken {A : Type} (P Q : call -> Prop) (m : M A) :
  (forall c, P c -> Q c) -> adds P m -> adds Q m.
Proof.
  intros H Hm w. destruct (Hm w) as (l & E & F).
  exists l. split; [exact E |]. eapply Forall_impl; eauto.
Qed.

Lemma ends_with_bind {A B : Type} (c : call) (m : M A) (k : A -> M B) :
  adds (fun _ => True) m -> (forall a, ends_with c (k a)) ->
  ends_with c (bind m k).
Proof.
  intros Hm Hk w b w'. unfold bind.
  destruct (Hm w) as (l1 & E1 & _).
  destruct (m w) as [[a | e] w1]; cbn [snd] in *; [| discriminate].
  intros H. destruct (Hk a w1 b w' H) as (l2 & E2).
  exists (l1 ++ l2)%list. rewrite E2, E1. now rewrite <- !app_assoc.
Qed.

Lemma ends_with_make_boot_ini (exit_status : list call -> call -> Z)
  (boot_script boot_disk : string) :
  ends_with (boot_ini_call boot_script boot_disk)
            (make_boot_ini exit_status boot_script boot_disk).
Proof.
  intros w a w'. unfold make_boot_ini, bind, cmd_runner_run, proc_wait.
  destruct (exit_status (calls w) _ =? 0); cbn; [| discriminate].
  intros [= _ <-]. exists []. reflexivity.
Qed.

Ltac solve_adds :=
  repeat first
    [ apply adds_make_uImage; intros ?
    | apply adds_make_uInitrd; intros ?
    | apply adds_make_boot_script; intros ?
    | apply adds_install_mx51evk_boot_loader
    | apply adds_install_omap_boot_loader; [intros ? |]
    | apply adds_make_boot_ini
    | apply adds_lift
    | apply adds_ret
    | apply adds_raise
    | apply adds_bind_lift; intros ? ?
    | apply adds_bind; [| intros ?] ];
  repeat match goal with
         | H : getattr _ _ = Ok _ |- _ =>
             vm_compute in H; inversion H; subst; clear H
         end.

Lemma example_builds_beagle :
  builds example_glob example_exit_status BeagleConfig "/parts" "/chroot"
         "/chroot/usr/lib/x-loader-omap3/MLO"
         "/parts/vmlinuz-2.6.35-1000-linaro-omap"
         "/parts/initrd.img-2.6.35-1000-linaro-omap".
Proof.
  split; [reflexivity |]. split; [| split; reflexivity].
  intros _ h. right. split; reflexivity.
Defined.

(** ** Wrapping the kernel and the initrd *)

(** C4, as the specification states it, fails for the initrd: the image
    header of the initrd gets the load and entry address 0, not the load
    address of the class, here for [BeagleConfig]. *)
Lemma make_uInitrd_not_profile_load_addr :
  getattr BeagleConfig load_addr = Ok (VStr "0x80008000")
  /\ calls (snd (make_uInitrd example_glob example_exit_status "/parts"
                              (VStr "linaro-omap") "/boot" start))
     = [mkimage_call "ramdisk" (VStr "0") (VStr "0") "initramfs"
                     "/parts/initrd.img-2.6.35-1000-linaro-omap"
                     "/boot/uInitrd"]
  /\ (let w := snd (_make_boot_files example_glob example_exit_status
                      example_mkstemp BeagleConfig "/parts" "boot" "/chroot"
                      "/boot" "/boot/boot.scr" "/dev/sdb" start) in
      In (mkimage_call "ramdisk" (VStr "0") (VStr "0") "initramfs"
                       "/parts/initrd.img-2.6.35-1000-linaro-omap"
                       "/boot/uInitrd") (calls w)
      /\ forall call,
           In call (calls w) ->
           arg_after "-T" (argv call) = Some (VStr "ramdisk") ->
           arg_after "-a" (argv call) <> Some (VStr "0x80008000")
           /\ arg_after "-e" (argv call) <> Some (VStr "0x80008000")).
Proof.
  split; [reflexivity |]. split; [reflexivity |].
  cbv zeta. split.
  - vm_compute. tauto.
  - intros call Hin. vm_compute in Hin.
    repeat (destruct Hin as [<- | Hin]; [vm_compute; intros H;
      first [discriminate H | split; intros E; discriminate E] |]).
    destruct Hin.
Qed.

(** C4, amended: in every run of [_make_boot_files] of a board, however it
    ends, an image header of type [kernel] is made with the load address of
    the class as load and entry address, and one of type [ramdisk] with the
    load and entry address 0 ([make_uInitrd] takes no load address); and when
    [vmlinuz-*-<suffix>] and [initrd.img-*-<suffix>] match one file each and
    every step succeeds, the run wraps both: the kernel into [uImage], the
    initrd into [uInitrd]. *)
Theorem make_boot_files_image_headers
  (glob : list call -> string -> list string)
  (exit_status : list call -> call -> Z)
  (mkstemp : list (string * string) -> string) (c : cls)
  (uboot_parts_dir boot_cmd chroot_dir boot_dir boot_script
   boot_device_or_file : string) :
  c <> BoardConfig ->
  (forall w,
      exists l,
        calls (snd (_make_boot_files glob exit_status mkstemp c
                      uboot_parts_dir boot_cmd chroot_dir boot_dir
                      boot_script boot_device_or_file w))
        = (calls w ++ l)%list
        /\ Forall
             (fun call =>
                forall img_type load entry name img_data img,
                  call = mkimage_call img_type load entry name img_data img ->
                  (img_type = "kernel" ->
                   load = attr_value c load_addr
                   /\ entry = attr_value c load_addr)
                  /\ (img_type = "ramdisk" ->
                      load = VStr "0" /\ entry = VStr "0"))
             l)
  /\ (forall mlo kernel initrd w,
         builds glob exit_status c uboot_parts_dir chroot_dir mlo kernel
                initrd ->
         exists w' l,
           _make_boot_files glob exit_status mkstemp c uboot_parts_dir
                            boot_cmd chroot_dir boot_dir boot_script
                            boot_device_or_file w
           = (Ok tt, w')
           /\ calls w' = (calls w ++ l)%list
           /\ In (mkimage_call "kernel" (attr_value c load_addr)
                               (attr_value c load_addr) "Linux" kernel
                               (boot_dir ++ "/uImage")) l
           /\ In (mkimage_call "ramdisk" (VStr "0") (VStr "0") "initramfs"
                               initrd (boot_dir ++ "/uInitrd")) l).
Proof.
  intros Hc. split.
  - revert Hc.
    change (c <> BoardConfig ->
            adds (fun call =>
                    forall img_type load entry name img_data img,
                      call = mkimage_call img_type load entry name img_data
                                          img ->
                      (img_type = "kernel" ->
                       load = attr_value c load_addr
                       /\ entry = attr_value c load_addr)
                      /\ (img_type = "ramdisk" ->
                          load = VStr "0" /\ entry = VStr "0"))
                 (_make_boot_files glob exit_status mkstemp c
                    uboot_parts_dir boot_cmd chroot_dir boot_dir boot_script
                    boot_device_or_file)).
    intros Hc.
    destruct c; try (exfalso; apply Hc; reflexivity);
      cbn [_make_boot_files];
      unfold OmapConfig__make_boot_files, IgepConfig__make_boot_files,
        Ux500Config__make_boot_files, Mx51evkConfig__make_boot_files,
        VexpressConfig__make_boot_files;
      solve_adds.
    all: intros ? ? ? ? ? ? E; inversion E; subst;
      split; intros T; first [discriminate T | split; reflexivity].
  - intros mlo kernel initrd w Hb.
    destruct (_make_boot_files_ok glob exit_status mkstemp c uboot_parts_dir
                boot_cmd chroot_dir boot_dir boot_script boot_device_or_file
                mlo kernel initrd w Hc Hb) as (w' & Hrun & Hcalls & _).
    exists w', (expected_calls c uboot_parts_dir chroot_dir boot_dir
                  boot_script boot_device_or_file mlo kernel initrd
                  (mkstemp (written w))).
    split; [exact Hrun |]. split; [exact Hcalls |].
    unfold expected_calls. rewrite !in_app_iff. cbn [In]. tauto.
Qed.

Lemma make_boot_files_image_headers_witness :
  exists w' l,
    _make_boot_files example_glob example_exit_status example_mkstemp
                     BeagleConfig "/parts" "boot" "/chroot" "/boot"
                     "/boot/boot.scr" "/dev/sdb" start
    = (Ok tt, w')
    /\ calls w' = (calls start ++ l)%list
    /\ In (mkimage_call "kernel" (VStr "0x80008000") (VStr "0x80008000")
                        "Linux" "/parts/vmlinuz-2.6.35-1000-linaro-omap"
                        "/boot/uImage") l
    /\ In (mkimage_call "ramdisk" (VStr "0") (VStr "0") "initramfs"
                        "/parts/initrd.img-2.6.35-1000-linaro-omap"
                        "/boot/uInitrd") l.
Proof.
  apply (proj2 (make_boot_files_image_headers
                  example_glob example_exit_status example_mkstemp
                  BeagleConfig "/parts" "boot" "/chroot" "/boot"
                  "/boot/boot.scr" "/dev/sdb" ltac:(discriminate))
           "/chroot/usr/lib/x-loader-omap3/MLO"
           "/parts/vmlinuz-2.6.35-1000-linaro-omap"
           "/parts/initrd.img-2.6.35-1000-linaro-omap" start
           example_builds_beagle).
Defined.

(** ** The copy of the boot script to [boot.ini] *)

(** C10: for Beagle, Overo, Panda and Igep, a run of [_make_boot_files] that
    returns has run the copy of the boot script to [<boot_dir>/boot.ini] as
    its last subprocess, and the run does return when every step succeeds;
    for Ux500, Mx51evk and Vexpress every subprocess of a run, however it
    ends, is [mkimage] or [dd], so that none is the copy to [boot.ini]. *)
Theorem make_boot_files_boot_ini
  (glob : list call -> string -> list string)
  (exit_status : list call -> call -> Z)
  (mkstemp : list (string * string) -> string) (c : cls)
  (uboot_parts_dir boot_cmd chroot_dir boot_dir boot_script
   boot_device_or_file : string) :
  (In c [BeagleConfig; OveroConfig; PandaConfig; IgepConfig] ->
   (forall w w',
       _make_boot_files glob exit_status mkstemp c uboot_parts_dir boot_cmd
                        chroot_dir boot_dir boot_script boot_device_or_file w
       = (Ok tt, w') ->
       exists l,
         calls w'
         = (calls w ++ l ++ [boot_ini_call boot_script boot_dir])%list)
   /\ (forall mlo kernel initrd w,
          builds glob exit_status c uboot_parts_dir chroot_dir mlo kernel
                 initrd ->
          exists w',
            _make_boot_files glob exit_status mkstemp c uboot_parts_dir
                             boot_cmd chroot_dir boot_dir boot_script
                             boot_device_or_file w
            = (Ok tt, w')))
  /\ (In c [Ux500Config; Mx51evkConfig; VexpressConfig] ->
      forall w,
        exists l,
          calls (snd (_make_boot_files glob exit_status mkstemp c
                        uboot_parts_dir boot_cmd chroot_dir boot_dir
                        boot_script boot_device_or_file w))
          = (calls w ++ l)%list
          /\ Forall (fun call =>
                       program call = Some (VStr "mkimage")
                       \/ program call = Some (VStr "dd")) l
          /\ forall script disk, ~ In (boot_ini_call script disk) l).
Proof.
  split.
  - intros Hc. split.
    + assert (E : ends_with (boot_ini_call boot_script boot_dir)
                    (_make_boot_files glob exit_status mkstemp c
                       uboot_parts_dir boot_cmd chroot_dir boot_dir
                       boot_script boot_device_or_file)).
      { cbn [In] in Hc.
        destruct Hc as [<- | [<- | [<- | [<- | []]]]];
          cbn [_make_boot_files];
          unfold OmapConfig__make_boot_files, IgepConfig__make_boot_files;
          repeat (apply ends_with_bind; [solve_adds; exact I | intros ?]);
          apply ends_with_make_boot_ini. }
      intros w w' H. exact (E w tt w' H).
    + intros mlo kernel initrd w Hb.
      assert (Hne : c <> BoardConfig).
      { cbn [In] in Hc. intros ->.
        destruct Hc as [E | [E | [E | [E | []]]]]; discriminate E. }
      destruct (_make_boot_files_ok glob exit_status mkstemp c
                  uboot_parts_dir boot_cmd chroot_dir boot_dir boot_script
                  boot_device_or_file mlo kernel initrd w Hne Hb)
        as (w' & Hrun & _).
      exists w'. exact Hrun.
  - intros Hc.
    assert (A : adds (fun call =>
                        program call = Some (VStr "mkimage")
                        \/ program call = Some (VStr "dd"))
                  (_make_boot_files glob exit_status mkstemp c
                     uboot_parts_dir boot_cmd chroot_dir boot_dir
                     boot_script boot_device_or_file)).
    { cbn [In] in Hc.
      destruct Hc as [<- | [<- | [<- | []]]];
        cbn [_make_boot_files];
        unfold Ux500Config__make_boot_files, Mx51evkConfig__make_boot_files,
          VexpressConfig__make_boot_files;
        solve_adds; first [left; reflexivity | right; reflexivity]. }
    intros w. destruct (A w) as (l & E & F).
    exists l. split; [exact E |]. split; [exact F |].
    intros script disk Hin.
    rewrite Forall_forall in F. destruct (F _ Hin) as [H | H]; discriminate H.
Qed.

Lemma make_boot_files_boot_ini_witness :
  (exists l,
      calls (snd (_make_boot_files example_glob example_exit_status
                    example_mkstemp BeagleConfig "/parts" "boot" "/chroot"
                    "/boot" "/boot/boot.scr" "/dev/sdb" start))
      = (calls start ++ l ++ [boot_ini_call "/boot/boot.scr" "/boot"])%list)
  /\ (exists l,
         calls (snd (_make_boot_files example_glob example_exit_status
                       example_mkstemp Ux500Config "/parts" "boot" "/chroot"
                       "/boot" "/boot/flash.scr" "/dev/sdb" start))
         = (calls start ++ l)%list
         /\ Forall (fun call =>
                      program call = Some (VStr "mkimage")
                      \/ program call = Some (VStr "dd")) l
         /\ forall script disk, ~ In (boot_ini_call script disk) l).
Proof.
  split.
  - apply (proj1 (proj1 (make_boot_files_boot_ini
                           example_glob example_exit_status example_mkstemp
                           BeagleConfig "/parts" "boot" "/chroot" "/boot"
                           "/boot/boot.scr" "/dev/sdb")
                    (or_introl eq_refl)) start).
    reflexivity.
  - apply (proj2 (make_boot_files_boot_ini
                    example_glob example_exit_status example_mkstemp
                    Ux500Config "/parts" "boot" "/chroot" "/boot"
                    "/boot/flash.scr" "/dev/sdb")
             (or_introl eq_refl) start).
Defined.

(** * Further properties of the module *)

(** ** The MLO file *)

(** X1: [_get_mlo_file] looks under [usr/lib/*/*/MLO] first and under
    [usr/lib/*/MLO] only when that matches nothing; one match is returned,
    no match at all and more than one match raise [AssertionError], and
    nothing is changed. *)
Theorem _get_mlo_file_cases (glob : list call -> string -> list string)
  (chroot_dir : string) (w : world) :
  let new := os_path_join chroot_dir ["usr"; "lib"; "*"; "*"; "MLO"] in
  let old := os_path_join chroot_dir ["usr"; "lib"; "*"; "MLO"] in
  (forall f, glob (calls w) new = [f] ->
             _get_mlo_file glob chroot_dir w = (Ok f, w))
  /\ ((1 < List.length (glob (calls w) new))%nat ->
      _get_mlo_file glob chroot_dir w
      = (Raise (AssertionError
                  ("More than one MLO file found on " ++ chroot_dir)), w))
  /\ (forall f, glob (calls w) new = [] -> glob (calls w) old = [f] ->
                _get_mlo_file glob chroot_dir w = (Ok f, w))
  /\ (glob (calls w) new = [] ->
      (1 < List.length (glob (calls w) old))%nat ->
      _get_mlo_file glob chroot_dir w
      = (Raise (AssertionError
                  ("More than one MLO file found on " ++ chroot_dir)), w))
  /\ (glob (calls w) new = [] -> glob (calls w) old = [] ->
      _get_mlo_file glob chroot_dir w
      = (Raise (AssertionError ("No MLO files found on " ++ chroot_dir)),
         w)).
Proof.
  cbv zeta. unfold _get_mlo_file, bind, glob_glob, ret, raise.
  repeat split.
  - intros f ->. reflexivity.
  - destruct (glob (calls w) _) as [| f [| g rest]]; cbn; intros H;
      first [lia | reflexivity].
  - intros f -> ->. reflexivity.
  - intros ->. cbn [calls].
    destruct (glob (calls w) _) as [| f [| g rest]]; cbn; intros H;
      first [lia | reflexivity].
  - intros -> ->. reflexivity.
Qed.

Lemma _get_mlo_file_cases_witness :
  _get_mlo_file (fun _ p => if String.eqb p "/chroot/usr/lib/*/*/MLO"
                            then ["/chroot/usr/lib/x-loader/omap3/MLO"]
                            else ["/chroot/usr/lib/x-loader-omap3/MLO"])
                "/chroot" start
  = (Ok "/chroot/usr/lib/x-loader/omap3/MLO", start)
  /\ _get_mlo_file example_glob "/chroot" start
     = (Ok "/chroot/usr/lib/x-loader-omap3/MLO", start)
  /\ _get_mlo_file (fun _ _ => []) "/chroot" start
     = (Raise (AssertionError "No MLO files found on /chroot"), start)
  /\ _get_mlo_file (fun _ _ => ["/a/MLO"; "/b/MLO"]) "/chroot" start
     = (Raise (AssertionError "More than one MLO file found on /chroot"),
        start).
Proof.
  split; [| split; [| split]].
  - apply (proj1 (_get_mlo_file_cases
                    (fun _ p => if String.eqb p "/chroot/usr/lib/*/*/MLO"
                                then ["/chroot/usr/lib/x-loader/omap3/MLO"]
                                else ["/chroot/usr/lib/x-loader-omap3/MLO"])
                    "/chroot" start)).
    reflexivity.
  - apply (proj1 (proj2 (proj2 (_get_mlo_file_cases example_glob "/chroot"
                                                      start))));
      reflexivity.
  - apply (proj2 (proj2 (proj2 (proj2
             (_get_mlo_file_cases (fun _ _ => []) "/chroot" start)))));
      reflexivity.
  - apply (proj1 (proj2 (_get_mlo_file_cases
                           (fun _ _ => ["/a/MLO"; "/b/MLO"]) "/chroot"
                           start))).
    cbn. lia.
Defined.

(** ** The kernel version in a file name *)

Lemma re_match_minor_cons (c : ascii) (s : string) :
  Ascii.eqb c newline = false ->
  re_match_minor (String c s)
  = match re_match_minor s with
    | Some g => Some g
    | None => match_2_6_at (String c s)
    end.
Proof. intros H. cbn [re_match_minor]. now rewrite H. Qed.

Lemma match_2_6_at_version (g : ascii * ascii) (rest : string) :
  is_digit (fst g) = true -> is_digit (snd g) = true ->
  match_2_6_at (version_2_6 g rest) = Some g.
Proof.
  destruct g as [d1 d2]. cbn [fst snd version_2_6 append match_2_6_at].
  intros -> ->. reflexivity.
Qed.

Lemma match_2_6_at_inv (s : string) (g : ascii * ascii) :
  match_2_6_at s = Some g ->
  exists rest,
    s = version_2_6 g rest
    /\ is_digit (fst g) = true /\ is_digit (snd g) = true.
Proof.
  unfold match_2_6_at.
  destruct s as [| [[] [] [] [] [] [] [] []] s]; try discriminate.
  destruct s as [| [[] [] [] [] [] [] [] []] s]; try discriminate.
  destruct s as [| [[] [] [] [] [] [] [] []] s]; try discriminate.
  destruct s as [| [[] [] [] [] [] [] [] []] s]; try discriminate.
  destruct s as [| e1 s]; try discriminate.
  destruct s as [| e2 s]; try discriminate.
  destruct (is_digit e1) eqn:H1; [| discriminate].
  destruct (is_digit e2) eqn:H2; [| discriminate].
  intros [= <-]. exists s. auto.
Qed.

(** X2: the regular expression of [set_appropriate_serial_tty] matches a
    name exactly when it holds [2.6.] and two digits after a prefix without
    newline; the group it reports is that of the last such place: no later
    one, up to the first newline, matches. *)
Theorem re_match_minor_last (s : string) :
  ((exists g, re_match_minor s = Some g)
   <-> (exists before g rest,
           s = before ++ version_2_6 g rest
           /\ no_newline before = true
           /\ is_digit (fst g) = true /\ is_digit (snd g) = true))
  /\ (forall g,
         re_match_minor s = Some g ->
         exists before rest,
           s = before ++ version_2_6 g rest
           /\ no_newline before = true
           /\ is_digit (fst g) = true /\ is_digit (snd g) = true
           /\ re_match_minor
                (".6." ++ String (fst g) (String (snd g) rest)) = None).
Proof.
  assert (Last : forall t g,
             re_match_minor t = Some g ->
             exists before rest,
               t = before ++ version_2_6 g rest
               /\ no_newline before = true
               /\ is_digit (fst g) = true /\ is_digit (snd g) = true
               /\ re_match_minor
                    (".6." ++ String (fst g) (String (snd g) rest)) = None).
  { induction t as [| c t IH]; [discriminate |].
    intros g. cbn [re_match_minor].
    destruct (Ascii.eqb c newline) eqn:Hc; [discriminate |].
    destruct (re_match_minor t) as [g' |] eqn:Ht.
    - intros [= ->].
      destruct (IH g eq_refl) as (before & rest & -> & Hb & H1 & H2 & Hn).
      exists (String c before), rest. cbn [no_newline append].
      rewrite Hc, Hb. auto.
    - intros Hm. destruct (match_2_6_at_inv _ _ Hm) as (rest & E & H1 & H2).
      exists "", rest. cbn [append no_newline].
      repeat (split; [assumption || reflexivity |]).
      unfold version_2_6 in E. cbn [append] in E.
      injection E as _ ->. exact Ht. }
  split; [split |].
  - intros (g & Hg).
    destruct (Last s g Hg) as (before & rest & E & Hb & H1 & H2 & _).
    exists before, g, rest. auto.
  - intros (before & g & rest & -> & Hb & H1 & H2).
    induction before as [| c before IH].
    + cbn [append].
      change (version_2_6 g rest)
        with (String "2" (".6." ++ String (fst g) (String (snd g) rest))).
      rewrite re_match_minor_cons by reflexivity.
      destruct (re_match_minor _) as [g' |]; [now exists g' |].
      exists g.
      change (match_2_6_at (version_2_6 g rest) = Some g).
      now apply match_2_6_at_version.
    + cbn [no_newline] in Hb. apply andb_prop in Hb as [Hc Hb].
      apply negb_true_iff in Hc. destruct (IH Hb) as (g' & Hg').
      exists g'. cbn [append re_match_minor]. now rewrite Hc, Hg'.
  - exact (Last s).
Qed.

Lemma re_match_minor_last_witness :
  exists before rest,
    "vmlinuz-2.6.35-linaro-2.6.38-omap"
    = before ++ version_2_6 ("3"%char, "8"%char) rest
    /\ no_newline before = true
    /\ is_digit "3" = true /\ is_digit "8" = true
    /\ re_match_minor (".6." ++ String "3" (String "8" rest)) = None.
Proof.
  apply (proj2 (re_match_minor_last "vmlinuz-2.6.35-linaro-2.6.38-omap")
           ("3"%char, "8"%char)).
  reflexivity.
Defined.

(** ** More on the serial TTY *)

(** The three reads depend on the class state only through what the lookup
    of [serial_tty] finds. *)
Lemma serial_reads_ext (st st' : class_state) (k : cls) :
  (forall k', In k' (mro k) -> st k' = st' k') ->
  get_serial_tty st k = get_serial_tty st' k
  /\ get_extra_serial_opts st k = get_extra_serial_opts st' k
  /\ get_live_serial_opts st k = get_live_serial_opts st' k.
Proof.
  intros H.
  assert (E : get_serial_tty st k = get_serial_tty st' k)
    by (unfold get_serial_tty; now rewrite (lookup_in_ext st st' _ H)).
  unfold get_extra_serial_opts, get_live_serial_opts, serial_opts_getter.
  now rewrite E.
Qed.

Lemma _get_boot_cmd_ext (st st' : class_state) (c : cls)
  (is_live is_lowmem : bool) (consoles : option (list string))
  (rootfs_uuid : string) :
  (forall k, In k (mro c) -> st k = st' k) ->
  _get_boot_cmd st c is_live is_lowmem consoles rootfs_uuid
  = _get_boot_cmd st' c is_live is_lowmem consoles rootfs_uuid.
Proof.
  intros H. destruct (serial_reads_ext st st' c H) as (E1 & E2 & E3).
  unfold _get_boot_cmd, console_opts. now rewrite E1, E2, E3.
Qed.

Lemma not_inherits (k c k' : cls) :
  inherits k c = false -> In k' (mro k) -> cls_eqb k' c = false.
Proof.
  unfold inherits. intros H Hin.
  destruct (cls_eqb k' c) eqn:E; [| reflexivity].
  apply cls_eqb_eq in E. subst k'.
  assert (X : existsb (cls_eqb c) (mro k) = true)
    by (apply existsb_exists; exists c; split;
        [exact Hin | apply cls_eqb_refl]).
  congruence.
Qed.

(** What [set_appropriate_serial_tty] does to the world, however it ends:
    at most the [serial_tty] entry of [c] changes. *)
Lemma set_appropriate_serial_tty_touches
  (glob : list call -> string -> list string) (c : cls)
  (chroot_dir : string) (w : world) :
  let w' := snd (set_appropriate_serial_tty glob c chroot_dir w) in
  (forall k, cls_eqb k c = false -> classes w' k = classes w k)
  /\ calls w' = calls w /\ written w' = written w
  /\ at_exit w' = at_exit w.
Proof.
  cbv zeta. unfold set_appropriate_serial_tty.
  destruct (is_omap c); [| now repeat split].
  unfold bind, set_serial_tty, _get_file_matching, bind, glob_glob, ret,
    raise.
  cbn [calls].
  destruct (glob (calls w) _) as [| f [| g rest]]; cbn [snd fst];
    try (repeat split; intros k Hk; cbn [classes];
         unfold setattr_serial_tty; now rewrite Hk).
  destruct (re_match_minor _) as [g |];
    [destruct (int_of_group g <? 36) |];
    repeat split; intros k Hk; cbn [classes snd];
    unfold setattr_serial_tty; now rewrite Hk.
Qed.

(** X3: [set_appropriate_serial_tty] fails with [AttributeError] on a class
    outside the OMAP family, with [ValueError] when [boot/vmlinuz*] does not
    match exactly one file, and with [AttributeError] when the name of the
    file holds no [2.6.] and two digits; in the last two cases the class is
    left with [serial_tty] bound to its default, [_serial_tty], because the
    default is bound before the kernel is looked for.  No subprocess is
    run. *)
Theorem set_appropriate_serial_tty_failures
  (glob : list call -> string -> list string) (c : cls)
  (chroot_dir : string) (w : world) :
  let pattern := os_path_join chroot_dir ["boot"; "vmlinuz*"] in
  (is_omap c = false ->
   exists msg,
     set_appropriate_serial_tty glob c chroot_dir w
     = (Raise (AttributeError msg), w))
  /\ (is_omap c = true ->
      List.length (glob (calls w) pattern) <> 1%nat ->
      exists msg w',
        set_appropriate_serial_tty glob c chroot_dir w
        = (Raise (ValueError msg), w')
        /\ calls w' = calls w
        /\ get_serial_tty (classes w') c = getattr c _serial_tty)
  /\ (is_omap c = true ->
      forall f,
        glob (calls w) pattern = [f] ->
        re_match_minor (os_path_basename f) = None ->
        exists msg w',
          set_appropriate_serial_tty glob c chroot_dir w
          = (Raise (AttributeError msg), w')
          /\ calls w' = calls w
          /\ get_serial_tty (classes w') c = getattr c _serial_tty).
Proof.
  cbv zeta. unfold set_appropriate_serial_tty. repeat split.
  - intros ->. eexists. reflexivity.
  - intros -> Hlen.
    unfold bind, set_serial_tty, _get_file_matching, bind, glob_glob, ret,
      raise.
    cbn [calls].
    destruct (glob (calls w) _) as [| f [| g rest]];
      try (exfalso; apply Hlen; reflexivity);
      do 2 eexists; (split; [reflexivity |]); (split; [reflexivity |]);
      cbn [classes]; unfold get_serial_tty;
      now rewrite lookup_in_setattr_self.
  - intros -> f Hf Hre.
    unfold bind, set_serial_tty, _get_file_matching, bind, glob_glob, ret,
      raise.
    cbn [calls]. rewrite Hf, Hre.
    do 2 eexists. split; [reflexivity |]. split; [reflexivity |].
    cbn [classes]. unfold get_serial_tty. now rewrite lookup_in_setattr_self.
Qed.

Lemma set_appropriate_serial_tty_failures_witness :
  (exists msg,
      set_appropriate_serial_tty example_glob Ux500Config "/chroot" start
      = (Raise (AttributeError msg), start))
  /\ (exists msg w',
         set_appropriate_serial_tty (fun _ _ => []) BeagleConfig "/chroot"
                                    start
         = (Raise (ValueError msg), w')
         /\ calls w' = calls start
         /\ get_serial_tty (classes w') BeagleConfig
            = getattr BeagleConfig _serial_tty)
  /\ (exists msg w',
         set_appropriate_serial_tty
           (fun _ _ => ["/chroot/boot/vmlinuz-3.0.0-1-linaro-omap"])
           BeagleConfig "/chroot" start
         = (Raise (AttributeError msg), w')
         /\ calls w' = calls start
         /\ get_serial_tty (classes w') BeagleConfig
            = getattr BeagleConfig _serial_tty).
Proof.
  split; [| split].
  - apply (proj1 (set_appropriate_serial_tty_failures
                    example_glob Ux500Config "/chroot" start)).
    reflexivity.
  - apply (proj1 (proj2 (set_appropriate_serial_tty_failures
                           (fun _ _ => []) BeagleConfig "/chroot" start)));
      [reflexivity | cbn; lia].
  - apply (proj2 (proj2 (set_appropriate_serial_tty_failures
                           (fun _ _ =>
                              ["/chroot/boot/vmlinuz-3.0.0-1-linaro-omap"])
                           BeagleConfig "/chroot" start))
             eq_refl "/chroot/boot/vmlinuz-3.0.0-1-linaro-omap");
      reflexivity.
Defined.

(** X4: [set_appropriate_serial_tty] on a class [c] changes what the serial
    TTY and the serial options read on no class that does not inherit from
    [c], whether it succeeds or fails; the subprocesses, the files written
    and the exit hooks stay as they are. *)
Theorem set_appropriate_serial_tty_frame
  (glob : list call -> string -> list string) (c k : cls)
  (chroot_dir : string) (w : world) :
  inherits k c = false ->
  let w' := snd (set_appropriate_serial_tty glob c chroot_dir w) in
  get_serial_tty (classes w') k = get_serial_tty (classes w) k
  /\ get_extra_serial_opts (classes w') k
     = get_extra_serial_opts (classes w) k
  /\ get_live_serial_opts (classes w') k = get_live_serial_opts (classes w) k
  /\ calls w' = calls w /\ written w' = written w
  /\ at_exit w' = at_exit w.
Proof.
  intros Hk. cbv zeta.
  destruct (set_appropriate_serial_tty_touches glob c chroot_dir w)
    as (Hcls & Hcalls & Hwritten & Hexit).
  destruct (serial_reads_ext
              (classes (snd (set_appropriate_serial_tty glob c chroot_dir w)))
              (classes w) k) as (E1 & E2 & E3).
  { intros k' Hin. apply Hcls. exact (not_inherits k c k' Hk Hin). }
  auto 10.
Qed.

Lemma set_appropriate_serial_tty_frame_witness :
  let w' := snd (set_appropriate_serial_tty example_glob IgepConfig
                   "/chroot" start) in
  get_serial_tty (classes w') BeagleConfig
  = get_serial_tty (classes start) BeagleConfig
  /\ get_extra_serial_opts (classes w') BeagleConfig
     = get_extra_serial_opts (classes start) BeagleConfig
  /\ get_live_serial_opts (classes w') BeagleConfig
     = get_live_serial_opts (classes start) BeagleConfig
  /\ calls w' = calls start /\ written w' = written start
  /\ at_exit w' = at_exit start.
Proof.
  apply (set_appropriate_serial_tty_frame example_glob IgepConfig
           BeagleConfig "/chroot" start).
  reflexivity.
Defined.

(** X5: resolving [BeagleConfig] resolves [IgepConfig] as well, as long as
    no call has bound [serial_tty] on [IgepConfig] itself: the subclass reads
    the binding of its base class, and gets the same serial TTY. *)
Theorem set_appropriate_serial_tty_igep
  (glob : list call -> string -> list string) (chroot_dir : string)
  (w : world) (f : string) (g : ascii * ascii) :
  classes w IgepConfig = None ->
  glob (calls w) (os_path_join chroot_dir ["boot"; "vmlinuz*"]) = [f] ->
  re_match_minor (os_path_basename f) = Some g ->
  let w' := snd (set_appropriate_serial_tty glob BeagleConfig chroot_dir w) in
  get_serial_tty (classes w') BeagleConfig = Ok (VStr (resolved_tty g))
  /\ get_serial_tty (classes w') IgepConfig = Ok (VStr (resolved_tty g))
  /\ get_extra_serial_opts (classes w') IgepConfig
     = Ok (VStr ("console=tty0 console=" ++ resolved_tty g ++ ",115200n8")).
Proof.
  intros Higep Hf Hre. cbv zeta.
  unfold set_appropriate_serial_tty. cbn [is_omap].
  change (is_omap BeagleConfig) with true. cbv iota.
  unfold bind, set_serial_tty, _get_file_matching, bind, glob_glob, ret.
  cbn [calls]. rewrite Hf, Hre. unfold resolved_tty.
  destruct (int_of_group g <? 36); cbn [snd classes];
    unfold get_extra_serial_opts, serial_opts_getter, get_serial_tty;
    cbn [mro lookup_in]; unfold setattr_serial_tty; cbn [cls_eqb];
    rewrite Higep; repeat split.
Qed.

Lemma set_appropriate_serial_tty_igep_witness :
  let w' := snd (set_appropriate_serial_tty example_glob BeagleConfig
                   "/chroot" start) in
  get_serial_tty (classes w') BeagleConfig
  = Ok (VStr (resolved_tty ("3"%char, "5"%char)))
  /\ get_serial_tty (classes w') IgepConfig
     = Ok (VStr (resolved_tty ("3"%char, "5"%char)))
  /\ get_extra_serial_opts (classes w') IgepConfig
     = Ok (VStr ("console=tty0 console="
                 ++ resolved_tty ("3"%char, "5"%char) ++ ",115200n8")).
Proof.
  apply (set_appropriate_serial_tty_igep example_glob "/chroot" start
           "/chroot/boot/vmlinuz-2.6.35-1000-linaro-omap"
           ("3"%char, "5"%char));
    reflexivity.
Defined.

(** ** More on the boot command *)

(** X6: on a class of the OMAP family whose serial TTY has not been
    resolved, [_get_boot_cmd] raises the [AttributeError] of the descriptor
    for every input, and so does the [make_boot_files] of the base class
    when it is called in place of the one of [OmapConfig]; it runs no
    subprocess and writes no file. *)
Theorem _get_boot_cmd_unresolved
  (glob : list call -> string -> list string)
  (exit_status : list call -> call -> Z)
  (mkstemp : list (string * string) -> string) (c : cls)
  (is_live is_lowmem : bool) (consoles : option (list string))
  (uboot_parts_dir root_dir rootfs_uuid boot_dir boot_script
   boot_device_or_file : string) (w : world) :
  is_omap c = true ->
  (forall k, In k (mro c) -> classes w k = loaded k) ->
  _get_boot_cmd (classes w) c is_live is_lowmem consoles rootfs_uuid
  = Raise (AttributeError unset_message)
  /\ BoardConfig_make_boot_files glob exit_status mkstemp c uboot_parts_dir
       is_live is_lowmem consoles root_dir rootfs_uuid boot_dir boot_script
       boot_device_or_file w
     = (Raise (AttributeError unset_message), w).
Proof.
  intros Homap Hst.
  assert (E : _get_boot_cmd (classes w) c is_live is_lowmem consoles
                            rootfs_uuid
              = Raise (AttributeError unset_message)).
  { rewrite (_get_boot_cmd_ext (classes w) loaded c _ _ _ _ Hst).
    unfold _get_boot_cmd, console_opts.
    destruct c; try discriminate Homap;
      destruct consoles as [cs |], is_live; reflexivity. }
  split; [exact E |].
  unfold BoardConfig_make_boot_files, bind. now rewrite E.
Qed.

Lemma _get_boot_cmd_unresolved_witness :
  _get_boot_cmd (classes start) PandaConfig false false (Some ["ttyO2"])
                "deadbeef"
  = Raise (AttributeError unset_message)
  /\ BoardConfig_make_boot_files example_glob example_exit_status
       example_mkstemp PandaConfig "/parts" false false (Some ["ttyO2"])
       "/chroot" "deadbeef" "/boot" "/boot/boot.scr" "/dev/sdb" start
     = (Raise (AttributeError unset_message), start).
Proof.
  apply (_get_boot_cmd_unresolved example_glob example_exit_status
           example_mkstemp PandaConfig false false (Some ["ttyO2"])
           "/parts" "/chroot" "deadbeef" "/boot" "/boot/boot.scr" "/dev/sdb"
           start eq_refl).
  intros k _. reflexivity.
Defined.

(** X7: the boot command of an installed (not live) system does not depend
    on [is_lowmem], and an empty list of consoles gives what no list gives;
    the boot command of a live system does not depend on [rootfs_uuid]. *)
Theorem _get_boot_cmd_ignores (st : class_state) (c : cls)
  (consoles : option (list string)) (rootfs_uuid : string) :
  (forall is_lowmem is_lowmem',
      _get_boot_cmd st c false is_lowmem consoles rootfs_uuid
      = _get_boot_cmd st c false is_lowmem' consoles rootfs_uuid)
  /\ (forall is_lowmem,
         _get_boot_cmd st c false is_lowmem (Some []) rootfs_uuid
         = _get_boot_cmd st c false is_lowmem None rootfs_uuid)
  /\ (forall is_lowmem rootfs_uuid',
         _get_boot_cmd st c true is_lowmem consoles rootfs_uuid
         = _get_boot_cmd st c true is_lowmem consoles rootfs_uuid').
Proof. repeat split. Qed.

(** ** What a run of [make_boot_files] does to the world *)

Section Steps.

Variable glob : list call -> string -> list string.
Variable exit_status : list call -> call -> Z.
Variable mkstemp : list (string * string) -> string.
Variable R : world -> world -> Prop.

Hypothesis R_refl : forall w, R w w.
Hypothesis R_trans : forall w1 w2 w3, R w1 w2 -> R w2 w3 -> R w1 w3.
Hypothesis R_call : forall w c, R w (with_call w c).

Lemma steps_same {A : Type} (m : M A) :
  (forall w, snd (m w) = w) -> steps R m.
Proof. intros H w. rewrite H. apply R_refl. Qed.

Lemma steps_bind {A B : Type} (m : M A) (k : A -> M B) :
  steps R m -> (forall a, steps R (k a)) -> steps R (bind m k).
Proof.
  intros Hm Hk w. unfold bind. specialize (Hm w).
  destruct (m w) as [[a | e] w1]; cbn [snd] in *; [| exact Hm].
  eapply R_trans; [exact Hm | apply Hk].
Qed.

Lemma steps_run_wait (cmd : list value) (root : bool) :
  steps R (bind (cmd_runner_run exit_status cmd root) proc_wait).
Proof.
  intros w. unfold bind, cmd_runner_run, proc_wait.
  destruct (exit_status (calls w) _ =? 0); apply R_call.
Qed.

Lemma steps__get_file_matching (regex : string) :
  steps R (_get_file_matching glob regex).
Proof.
  apply steps_same. intros w. unfold _get_file_matching, bind, glob_glob.
  now destruct (glob (calls w) regex) as [| f [| g rest]].
Qed.

Lemma steps__run_mkimage (img_type : string) (load entry : value)
  (name img_data img : string) :
  steps R (_run_mkimage exit_status img_type load entry name img_data img).
Proof. apply steps_run_wait. Qed.

Lemma steps_make_uImage (load : value) (dir : string) (suffix : value)
  (boot_disk : string) :
  steps R (make_uImage glob exit_status load dir suffix boot_disk).
Proof.
  apply steps_bind; [apply steps__get_file_matching |].
  intros img_data. apply steps__run_mkimage.
Qed.

Lemma steps_make_uInitrd (dir : string) (suffix : value)
  (boot_disk : string) :
  steps R (make_uInitrd glob exit_status dir suffix boot_disk).
Proof.
  apply steps_bind; [apply steps__get_file_matching |].
  intros img_data. apply steps__run_mkimage.
Qed.

Lemma steps_then_ret {A : Type} (m : M A) :
  steps R m -> steps R (bind m (fun _ => ret tt)).
Proof. intros H. apply steps_bind; [exact H |]. intros _. now apply steps_same. Qed.

Lemma steps_make_boot_ini (boot_script boot_disk : string) :
  steps R (make_boot_ini exit_status boot_script boot_disk).
Proof.
  intros w. unfold make_boot_ini, bind, cmd_runner_run, proc_wait, ret.
  destruct (exit_status (calls w) _ =? 0); apply R_call.
Qed.

Lemma steps_install_mx51evk_boot_loader (imx_file dev : string) :
  steps R (install_mx51evk_boot_loader exit_status imx_file dev).
Proof.
  intros w.
  unfold install_mx51evk_boot_loader, bind, cmd_runner_run, proc_wait, ret.
  destruct (exit_status (calls w) _ =? 0); apply R_call.
Qed.

Lemma steps__get_mlo_file (chroot_dir : string) :
  steps R (_get_mlo_file glob chroot_dir).
Proof.
  apply steps_same. intros w. unfold _get_mlo_file, bind, glob_glob, ret.
  destruct (glob (calls w) _) as [| f [| g rest]]; cbn [fst snd calls];
    try reflexivity.
  now destruct (glob (calls w) _) as [| f [| g rest]].
Qed.

Lemma steps_install_omap_boot_loader (chroot_dir boot_disk : string) :
  steps R (install_omap_boot_loader glob exit_status chroot_dir boot_disk).
Proof.
  unfold install_omap_boot_loader.
  apply steps_bind; [apply steps__get_mlo_file |]. intros mlo.
  apply steps_bind.
  { intros w. unfold cmd_runner_run. apply R_call. }
  intros proc. apply steps_bind.
  { apply steps_same. intros w. destruct proc as [c rc]. unfold proc_wait.
    now destruct (rc =? 0). }
  intros _. apply steps_then_ret. apply steps_run_wait.
Qed.

(** The temporary file of the boot script is registered before it is
    written; the two steps are taken as one. *)
Lemma steps_make_boot_script (data boot_script : string) :
  (forall w path, R w (with_tmpfile w path data)) ->
  steps R (make_boot_script exit_status mkstemp data boot_script).
Proof.
  intros R_tmp w.
  unfold make_boot_script, tempfile_mkstemp, atexit_register_unlink,
    write_file.
  unfold bind at 1. unfold bind at 1. unfold bind at 1.
  eapply R_trans; [apply (R_tmp w (mkstemp (written w))) |].
  apply (steps__run_mkimage "script" (VStr "0") (VStr "0") "boot script"
           (mkstemp (written w)) boot_script
           (with_tmpfile w (mkstemp (written w)) data)).
Qed.

Lemma steps_set_appropriate_serial_tty (c : cls) (chroot_dir : string) :
  (forall w e, R w (with_serial_tty w c e)) ->
  steps R (set_appropriate_serial_tty glob c chroot_dir).
Proof.
  intros R_tty. unfold set_appropriate_serial_tty.
  destruct (is_omap c); [| now apply steps_same].
  apply steps_bind; [intros w; apply R_tty |]. intros _.
  apply steps_bind; [apply steps__get_file_matching |]. intros vmlinuz.
  destruct (re_match_minor _) as [g |]; [| now apply steps_same].
  destruct (int_of_group g <? 36); [| now apply steps_same].
  intros w. apply R_tty.
Qed.

Lemma steps__make_boot_files (c : cls)
  (uboot_parts_dir boot_cmd chroot_dir boot_dir boot_script
   boot_device_or_file : string) :
  (makes_boot_script c = true ->
   forall w path, R w (with_tmpfile w path boot_cmd)) ->
  steps R (_make_boot_files glob exit_status mkstemp c uboot_parts_dir
             boot_cmd chroot_dir boot_dir boot_script boot_device_or_file).
Proof.
  intros R_tmp.
  destruct c; cbn [_make_boot_files];
    unfold OmapConfig__make_boot_files, IgepConfig__make_boot_files,
      Ux500Config__make_boot_files, Mx51evkConfig__make_boot_files,
      VexpressConfig__make_boot_files;
    repeat first
      [ apply steps_make_uImage
      | apply steps_make_uInitrd
      | apply steps_make_boot_ini
      | apply steps_install_mx51evk_boot_loader
      | apply steps_install_omap_boot_loader
      | apply steps_make_boot_script; apply R_tmp; reflexivity
      | apply steps_same; intros ?; reflexivity
      | apply steps_bind; [| intros ?] ].
  all: apply steps_same; intros w; unfold lift; cbn [snd]; reflexivity.
Qed.

Lemma steps_make_boot_files (c : cls) (uboot_parts_dir : string)
  (is_live is_lowmem : bool) (consoles : option (list string))
  (root_dir rootfs_uuid boot_dir boot_script boot_device_or_file : string) :
  (makes_boot_script c = true ->
   forall w path data, R w (with_tmpfile w path data)) ->
  (is_omap c = true -> forall w e, R w (with_serial_tty w c e)) ->
  steps R (make_boot_files glob exit_status mkstemp c uboot_parts_dir
             is_live is_lowmem consoles root_dir rootfs_uuid boot_dir
             boot_script boot_device_or_file).
Proof.
  intros R_tmp R_tty.
  assert (Base : steps R (BoardConfig_make_boot_files glob exit_status
                            mkstemp c uboot_parts_dir is_live is_lowmem
                            consoles root_dir rootfs_uuid boot_dir
                            boot_script boot_device_or_file)).
  { unfold BoardConfig_make_boot_files.
    apply steps_bind; [now apply steps_same |]. intros boot_cmd.
    apply steps__make_boot_files. intros Hs w path. now apply R_tmp. }
  unfold make_boot_files. destruct (is_omap c); [| exact Base].
  apply steps_bind; [| intros _; exact Base].
  apply steps_set_appropriate_serial_tty. now apply R_tty.
Qed.

End Steps.

(** X8: in every run of [make_boot_files], of any class and however the run
    ends, each file that is written is registered for deletion at exit, in
    the same order: the run appends some files to the files written and
    their paths to the exit hooks.  A class that makes no boot script
    ([VexpressConfig], [BoardConfig]) writes no file at all. *)
Theorem make_boot_files_tmpfiles
  (glob : list call -> string -> list string)
  (exit_status : list call -> call -> Z)
  (mkstemp : list (string * string) -> string) (c : cls)
  (uboot_parts_dir : string) (is_live is_lowmem : bool)
  (consoles : option (list string))
  (root_dir rootfs_uuid boot_dir boot_script boot_device_or_file : string)
  (w : world) :
  let w' := snd (make_boot_files glob exit_status mkstemp c uboot_parts_dir
                   is_live is_lowmem consoles root_dir rootfs_uuid boot_dir
                   boot_script boot_device_or_file w) in
  exists files,
    written w' = (written w ++ files)%list
    /\ at_exit w' = (at_exit w ++ map fst files)%list
    /\ (makes_boot_script c = false -> files = []).
Proof.
  cbv zeta.
  apply (steps_make_boot_files glob exit_status mkstemp
           (fun w w' =>
              exists files,
                written w' = (written w ++ files)%list
                /\ at_exit w' = (at_exit w ++ map fst files)%list
                /\ (makes_boot_script c = false -> files = []))).
  - intros w0. exists []. now rewrite !app_nil_r.
  - intros w1 w2 w3 (f1 & W1 & A1 & N1) (f2 & W2 & A2 & N2).
    exists (f1 ++ f2)%list. rewrite W2, W1, A2, A1, map_app, !app_assoc.
    repeat split. intros H. now rewrite (N1 H), (N2 H).
  - intros w0 call. exists []. cbn. now rewrite !app_nil_r.
  - intros Hs w0 path data. exists [(path, data)]. cbn.
    repeat split. congruence.
  - intros _ w0 e. exists []. cbn. now rewrite !app_nil_r.
Qed.

(** X9: a run of [make_boot_files] of a class outside the OMAP family leaves
    [serial_tty] as it is on every class, and a run on a class [c] of the
    family changes it on [c] only, so that the serial TTY and the serial
    options of a class that does not inherit from [c] read as before,
    however the run ends. *)
Theorem make_boot_files_frame
  (glob : list call -> string -> list string)
  (exit_status : list call -> call -> Z)
  (mkstemp : list (string * string) -> string) (c : cls)
  (uboot_parts_dir : string) (is_live is_lowmem : bool)
  (consoles : option (list string))
  (root_dir rootfs_uuid boot_dir boot_script boot_device_or_file : string)
  (w : world) :
  let w' := snd (make_boot_files glob exit_status mkstemp c uboot_parts_dir
                   is_live is_lowmem consoles root_dir rootfs_uuid boot_dir
                   boot_script boot_device_or_file w) in
  (is_omap c = false -> forall k, classes w' k = classes w k)
  /\ (forall k, k <> c -> classes w' k = classes w k)
  /\ (forall k,
         inherits k c = false ->
         get_serial_tty (classes w') k = get_serial_tty (classes w) k
         /\ get_extra_serial_opts (classes w') k
            = get_extra_serial_opts (classes w) k
         /\ get_live_serial_opts (classes w') k
            = get_live_serial_opts (classes w) k).
Proof.
  cbv zeta.
  assert (H : forall k,
             is_omap c = false \/ cls_eqb k c = false ->
             classes
               (snd (make_boot_files glob exit_status mkstemp c
                       uboot_parts_dir is_live is_lowmem consoles root_dir
                       rootfs_uuid boot_dir boot_script boot_device_or_file
                       w)) k
             = classes w k).
  { apply (steps_make_boot_files glob exit_status mkstemp
             (fun w w' =>
                forall k,
                  is_omap c = false \/ cls_eqb k c = false ->
                  classes w' k = classes w k)).
    - reflexivity.
    - intros w1 w2 w3 H1 H2 k Hk. now rewrite (H2 k Hk), (H1 k Hk).
    - reflexivity.
    - reflexivity.
    - intros Homap w0 e k [Hk | Hk]; [congruence |].
      cbn [with_serial_tty classes]. unfold setattr_serial_tty.
      now rewrite Hk. }
  split; [| split].
  - intros Homap k. apply H. now left.
  - intros k Hk. apply H. right.
    destruct (cls_eqb k c) eqn:E; [| reflexivity].
    apply cls_eqb_eq in E. contradiction.
  - intros k Hk. apply serial_reads_ext. intros k' Hin. apply H. right.
    exact (not_inherits k c k' Hk Hin).
Qed.

Lemma make_boot_files_frame_witness :
  let w' := snd (make_boot_files example_glob example_exit_status
                   example_mkstemp BeagleConfig "/parts" false false None
                   "/chroot" "deadbeef" "/boot" "/boot/boot.scr" "/dev/sdb"
                   start) in
  get_serial_tty (classes w') BeagleConfig = Ok (VStr "ttyS2")
  /\ get_serial_tty (classes w') PandaConfig
     = get_serial_tty (classes start) PandaConfig
  /\ get_extra_serial_opts (classes w') PandaConfig
     = get_extra_serial_opts (classes start) PandaConfig
  /\ get_live_serial_opts (classes w') PandaConfig
     = get_live_serial_opts (classes start) PandaConfig.
Proof.
  split; [reflexivity |].
  apply (proj2 (proj2 (make_boot_files_frame
                         example_glob example_exit_status example_mkstemp
                         BeagleConfig "/parts" false false None "/chroot"
                         "deadbeef" "/boot" "/boot/boot.scr" "/dev/sdb"
                         start))
           PandaConfig).
  reflexivity.
Defined.

(** ** The subprocesses of [make_boot_files] *)


Ltac unfold_make_boot_files :=
  cbn [_make_boot_files];
  unfold OmapConfig__make_boot_files, IgepConfig__make_boot_files,
    Ux500Config__make_boot_files, Mx51evkConfig__make_boot_files,
    VexpressConfig__make_boot_files.



(** ** Complete runs *)

Lemma bind_raise {A B : Type} (m : M A) (k : A -> M B) (w w1 : world)
  (e : exn) :
  m w = (Raise e, w1) -> bind m k w = (Raise e, w1).
Proof. unfold bind. now intros ->. Qed.

Lemma set_appropriate_serial_tty_ok
  (glob : list call -> string -> list string) (c : cls)
  (chroot_dir : string) (w : world) (f : string) (g : ascii * ascii) :
  is_omap c = true ->
  glob (calls w) (os_path_join chroot_dir ["boot"; "vmlinuz*"]) = [f] ->
  re_match_minor (os_path_basename f) = Some g ->
  set_appropriate_serial_tty glob c chroot_dir w
  = (Ok tt,
     mkWorld (resolved (classes w) c g) (calls w) (written w) (at_exit w)).
Proof.
  intros Homap Hf Hre. unfold set_appropriate_serial_tty. rewrite Homap.
  unfold bind, set_serial_tty, _get_file_matching, bind, glob_glob, ret.
  cbn [calls]. rewrite Hf, Hre. unfold resolved.
  now destruct (int_of_group g <? 36).
Qed.

(** The boards of the OMAP family read their serial TTY once it is
    resolved, and their serial options too, but for the live serial options
    of [OveroConfig]. *)
Lemma resolved_reads (st : class_state) (c : cls) (g : ascii * ascii)
  (name : string) :
  In (name, c) board_configs ->
  is_omap c = true ->
  get_serial_tty (resolved st c g) c = Ok (VStr (resolved_tty g))
  /\ get_extra_serial_opts (resolved st c g) c
     = Ok (VStr ("console=tty0 console=" ++ resolved_tty g ++ ",115200n8"))
  /\ (c <> OveroConfig ->
      get_live_serial_opts (resolved st c g) c
      = Ok (VStr ("serialtty=" ++ resolved_tty g)))
  /\ (c = OveroConfig ->
      exists msg,
        get_live_serial_opts (resolved st c g) c = Raise (TypeError msg)).
Proof.
  intros Hin Homap. unfold resolved, resolved_tty.
  cbn [board_configs In] in Hin.
  repeat (destruct Hin as [[= <- <-] | Hin]; try discriminate Homap);
    try destruct Hin;
    destruct (int_of_group g <? 36);
    (split; [reflexivity |]); (split; [reflexivity |]);
    (split; [intros H; first [reflexivity | now contradiction H]
            | intros H; first [discriminate H | eexists; reflexivity]]).
Qed.

Lemma BoardConfig_make_boot_files_ok
  (glob : list call -> string -> list string)
  (exit_status : list call -> call -> Z)
  (mkstemp : list (string * string) -> string) (c : cls)
  (uboot_parts_dir : string) (is_live is_lowmem : bool)
  (consoles : option (list string))
  (root_dir rootfs_uuid boot_dir boot_script boot_device_or_file mlo kernel
   initrd boot_cmd : string) (w : world) :
  c <> BoardConfig ->
  builds glob exit_status c uboot_parts_dir root_dir mlo kernel initrd ->
  _get_boot_cmd (classes w) c is_live is_lowmem consoles rootfs_uuid
  = Ok boot_cmd ->
  exists w',
    BoardConfig_make_boot_files glob exit_status mkstemp c uboot_parts_dir
      is_live is_lowmem consoles root_dir rootfs_uuid boot_dir boot_script
      boot_device_or_file w
    = (Ok tt, w')
    /\ calls w'
       = (calls w
          ++ expected_calls c uboot_parts_dir root_dir boot_dir boot_script
                            boot_device_or_file mlo kernel initrd
                            (mkstemp (written w)))%list
    /\ classes w' = classes w
    /\ written w'
       = (written w
          ++ (if makes_boot_script c
              then [(mkstemp (written w), boot_cmd)] else []))%list.
Proof.
  intros Hc Hb Hcmd. unfold BoardConfig_make_boot_files.
  unfold bind at 1. rewrite Hcmd.
  apply _make_boot_files_ok; assumption.
Qed.

(** X12: for a board of [board_configs], in an environment where every step
    succeeds (the subprocesses exit with status 0, the kernel and the
    initrd are there once each, the MLO file and a kernel [2.6.NN] under
    [boot/] for a board of the OMAP family) and with the classes outside the
    OMAP family as loaded, [make_boot_files] returns, unless the board is
    [OveroConfig] and the system is live.  It has run the boot loader
    installation, the two image headers, the boot script compilation and the
    copy to [boot.ini] that the board calls for, in this order; the boot
    script it has written is the boot command of the class as the run
    leaves it, which, in the OMAP family, has the serial TTY [ttyS2] for
    [NN] below 36 and [ttyO2] otherwise. *)
Theorem make_boot_files_ok
  (glob : list call -> string -> list string)
  (exit_status : list call -> call -> Z)
  (mkstemp : list (string * string) -> string) (name : string) (c : cls)
  (uboot_parts_dir : string) (is_live is_lowmem : bool)
  (consoles : option (list string))
  (root_dir rootfs_uuid boot_dir boot_script boot_device_or_file mlo kernel
   initrd f : string) (g : ascii * ascii) (w : world) :
  In (name, c) board_configs ->
  builds glob exit_status c uboot_parts_dir root_dir mlo kernel initrd ->
  (forall k, is_omap k = false -> classes w k = loaded k) ->
  (is_omap c = true ->
   glob (calls w) (os_path_join root_dir ["boot"; "vmlinuz*"]) = [f]
   /\ re_match_minor (os_path_basename f) = Some g) ->
  (c = OveroConfig -> is_live = false) ->
  exists w',
    make_boot_files glob exit_status mkstemp c uboot_parts_dir is_live
      is_lowmem consoles root_dir rootfs_uuid boot_dir boot_script
      boot_device_or_file w
    = (Ok tt, w')
    /\ calls w'
       = (calls w
          ++ expected_calls c uboot_parts_dir root_dir boot_dir boot_script
                            boot_device_or_file mlo kernel initrd
                            (mkstemp (written w)))%list
    /\ (is_omap c = true ->
        get_serial_tty (classes w') c = Ok (VStr (resolved_tty g)))
    /\ (makes_boot_script c = true ->
        exists boot_cmd,
          _get_boot_cmd (classes w') c is_live is_lowmem consoles rootfs_uuid
          = Ok boot_cmd
          /\ written w'
             = (written w ++ [(mkstemp (written w), boot_cmd)])%list)
    /\ (makes_boot_script c = false -> written w' = written w).
Proof.
  intros Hin Hb Hst Hvm Hov.
  destruct (board_configs_concrete name c Hin) as [Hc _].
  unfold make_boot_files. destruct (is_omap c) eqn:Homap.
  - destruct (Hvm eq_refl) as [Hf Hre].
    rewrite (bind_ok _ _ _ _ _
               (set_appropriate_serial_tty_ok glob c root_dir w f g Homap
                  Hf Hre)).
    set (w1 := mkWorld (resolved (classes w) c g) (calls w) (written w)
                       (at_exit w)).
    destruct (resolved_reads (classes w) c g name Hin Homap)
      as (Htty & Hextra & Hlive & _).
    assert (Hcmd : exists boot_cmd,
               _get_boot_cmd (classes w1) c is_live is_lowmem consoles
                             rootfs_uuid = Ok boot_cmd).
    { eexists.
      apply (_get_boot_cmd_text (classes w1) c is_live is_lowmem consoles
               rootfs_uuid (VStr (resolved_tty g))
               (VStr ("console=tty0 console=" ++ resolved_tty g
                      ++ ",115200n8"))
               (VStr ("serialtty=" ++ resolved_tty g))).
      - intros _ _. exact Htty.
      - exact Hextra.
      - intros Hl. apply Hlive. intros ->.
        rewrite (Hov eq_refl) in Hl. discriminate Hl. }
    destruct Hcmd as (boot_cmd & Hcmd).
    destruct (BoardConfig_make_boot_files_ok glob exit_status mkstemp c
                uboot_parts_dir is_live is_lowmem consoles root_dir
                rootfs_uuid boot_dir boot_script boot_device_or_file mlo
                kernel initrd boot_cmd w1 Hc Hb Hcmd)
      as (w' & Hrun & Hcalls & Hcls & Hwritten).
    exists w'. split; [exact Hrun |]. split; [exact Hcalls |].
    split; [intros _; rewrite Hcls; exact Htty |].
    split.
    + intros Hs. exists boot_cmd. rewrite Hcls. split; [exact Hcmd |].
      rewrite Hwritten, Hs. reflexivity.
    + intros Hs. rewrite Hwritten, Hs. apply app_nil_r.
  - assert (Hloaded : forall k, In k (mro c) -> classes w k = loaded k).
    { intros k Hk. apply Hst.
      destruct c; try discriminate Homap;
        try (exfalso; apply Hc; reflexivity);
        cbn [mro In] in Hk; destruct Hk as [<- | [<- | []]]; reflexivity. }
    destruct (_get_boot_cmd_returns c is_live is_lowmem consoles rootfs_uuid
                Homap) as (boot_cmd & Hcmd).
    rewrite <- (_get_boot_cmd_ext (classes w) loaded c _ _ _ _ Hloaded)
      in Hcmd.
    destruct (BoardConfig_make_boot_files_ok glob exit_status mkstemp c
                uboot_parts_dir is_live is_lowmem consoles root_dir
                rootfs_uuid boot_dir boot_script boot_device_or_file mlo
                kernel initrd boot_cmd w Hc Hb Hcmd)
      as (w' & Hrun & Hcalls & Hcls & Hwritten).
    exists w'. split; [exact Hrun |]. split; [exact Hcalls |].
    split; [intros H; discriminate H |].
    split.
    + intros Hs. exists boot_cmd. rewrite Hcls. split; [exact Hcmd |].
      rewrite Hwritten, Hs. reflexivity.
    + intros Hs. rewrite Hwritten, Hs. apply app_nil_r.
Qed.

Lemma make_boot_files_ok_witness :
  exists w',
    make_boot_files example_glob example_exit_status example_mkstemp
      BeagleConfig "/parts" true false (Some ["ttyS2"]) "/chroot" "deadbeef"
      "/boot" "/boot/boot.scr" "/dev/sdb" start
    = (Ok tt, w')
    /\ calls w'
       = (calls start
          ++ expected_calls BeagleConfig "/parts" "/chroot" "/boot"
               "/boot/boot.scr" "/dev/sdb"
               "/chroot/usr/lib/x-loader-omap3/MLO"
               "/parts/vmlinuz-2.6.35-1000-linaro-omap"
               "/parts/initrd.img-2.6.35-1000-linaro-omap"
               (example_mkstemp (written start)))%list
    /\ (is_omap BeagleConfig = true ->
        get_serial_tty (classes w') BeagleConfig
        = Ok (VStr (resolved_tty ("3"%char, "5"%char))))
    /\ (makes_boot_script BeagleConfig = true ->
        exists boot_cmd,
          _get_boot_cmd (classes w') BeagleConfig true false
                        (Some ["ttyS2"]) "deadbeef"
          = Ok boot_cmd
          /\ written w'
             = (written start
                ++ [(example_mkstemp (written start), boot_cmd)])%list)
    /\ (makes_boot_script BeagleConfig = false ->
        written w' = written start).
Proof.
  apply (make_boot_files_ok example_glob example_exit_status example_mkstemp
           "beagle" BeagleConfig "/parts" true false (Some ["ttyS2"])
           "/chroot" "deadbeef" "/boot" "/boot/boot.scr" "/dev/sdb"
           "/chroot/usr/lib/x-loader-omap3/MLO"
           "/parts/vmlinuz-2.6.35-1000-linaro-omap"
           "/parts/initrd.img-2.6.35-1000-linaro-omap"
           "/chroot/boot/vmlinuz-2.6.35-1000-linaro-omap"
           ("3"%char, "5"%char) start).
  - left. reflexivity.
  - exact example_builds_beagle.
  - intros k _. reflexivity.
  - intros _. split; reflexivity.
  - intros H. discriminate H.
Defined.

(** X13: [make_boot_files] of [OveroConfig] for a live system raises
    [TypeError] once the serial TTY is resolved, whatever the other
    arguments: the class has no [_live_serial_opts] to format.  Nothing has
    been run or written by then. *)
Theorem make_boot_files_overo_live
  (glob : list call -> string -> list string)
  (exit_status : list call -> call -> Z)
  (mkstemp : list (string * string) -> string)
  (uboot_parts_dir : string) (is_lowmem : bool)
  (consoles : option (list string))
  (root_dir rootfs_uuid boot_dir boot_script boot_device_or_file f : string)
  (g : ascii * ascii) (w : world) :
  glob (calls w) (os_path_join root_dir ["boot"; "vmlinuz*"]) = [f] ->
  re_match_minor (os_path_basename f) = Some g ->
  exists msg w',
    make_boot_files glob exit_status mkstemp OveroConfig uboot_parts_dir true
      is_lowmem consoles root_dir rootfs_uuid boot_dir boot_script
      boot_device_or_file w
    = (Raise (TypeError msg), w')
    /\ calls w' = calls w /\ written w' = written w
    /\ at_exit w' = at_exit w
    /\ get_serial_tty (classes w') OveroConfig
       = Ok (VStr (resolved_tty g)).
Proof.
  intros Hf Hre. unfold make_boot_files.
  change (is_omap OveroConfig) with true. cbv iota.
  rewrite (bind_ok _ _ _ _ _
             (set_appropriate_serial_tty_ok glob OveroConfig root_dir w f g
                eq_refl Hf Hre)).
  destruct (resolved_reads (classes w) OveroConfig g "overo")
    as (Htty & Hextra & _ & Hlive);
    [cbn [board_configs In]; tauto | reflexivity |].
  destruct (Hlive eq_refl) as (msg & Hmsg).
  exists msg. eexists. split.
  - unfold BoardConfig_make_boot_files. apply bind_raise.
    cbn [classes]. unfold _get_boot_cmd.
    rewrite (getattr_base OveroConfig extra_boot_args_options)
      by discriminate.
    cbn [rbind].
    rewrite (console_opts_spaced _ OveroConfig true consoles
               (VStr (resolved_tty g)) (fun _ _ => Htty)).
    cbn [rbind]. rewrite Hextra. cbn [rbind]. rewrite Hmsg. reflexivity.
  - cbn [calls written at_exit classes]. auto.
Qed.

Lemma make_boot_files_overo_live_witness :
  exists msg w',
    make_boot_files example_glob example_exit_status example_mkstemp
      OveroConfig "/parts" true false None "/chroot" "deadbeef" "/boot"
      "/boot/boot.scr" "/dev/sdb" start
    = (Raise (TypeError msg), w')
    /\ calls w' = calls start /\ written w' = written start
    /\ at_exit w' = at_exit start
    /\ get_serial_tty (classes w') OveroConfig
       = Ok (VStr (resolved_tty ("3"%char, "5"%char))).
Proof.
  apply (make_boot_files_overo_live example_glob example_exit_status
           example_mkstemp "/parts" false None "/chroot" "deadbeef" "/boot"
           "/boot/boot.scr" "/dev/sdb"
           "/chroot/boot/vmlinuz-2.6.35-1000-linaro-omap"
           ("3"%char, "5"%char) start);
    reflexivity.
Defined.

Lemma make_uImage_fail (glob : list call -> string -> list string)
  (exit_status : list call -> call -> Z) (load : value) (dir : string)
  (suffix : value) (boot_disk : string) (w : world) :
  List.length (glob (calls w) (dir ++ "/vmlinuz-*-" ++ str suffix)) <> 1%nat
  ->
  exists msg,
    make_uImage glob exit_status load dir suffix boot_disk w
    = (Raise (ValueError msg), w).
Proof.
  intros H. unfold make_uImage, _get_file_matching, bind, glob_glob, raise.
  destruct (glob (calls w) _) as [| f [| f' rest]];
    [| exfalso; apply H; reflexivity |]; eexists; reflexivity.
Qed.

(** X14: when the kernel is not there once, [_make_boot_files] raises
    [ValueError] only after it has installed the boot loader: the MLO file
    is copied and [sync] run for Beagle, Overo and Panda, and the [u-boot.imx]
    file is written to the device with [dd] for Mx51evk; for the other boards
    nothing has been run.  No file is written. *)
Theorem _make_boot_files_no_kernel
  (glob : list call -> string -> list string)
  (exit_status : list call -> call -> Z)
  (mkstemp : list (string * string) -> string) (c : cls)
  (uboot_parts_dir boot_cmd chroot_dir boot_dir boot_script
   boot_device_or_file mlo : string) (w : world) :
  c <> BoardConfig ->
  (forall h call, exit_status h call = 0) ->
  (installs_mlo c = true -> mlo_found glob chroot_dir mlo) ->
  (forall h,
      List.length (glob h (uboot_parts_dir ++ "/vmlinuz-*-"
                           ++ str (attr_value c kernel_suffix))) <> 1%nat) ->
  exists msg w',
    _make_boot_files glob exit_status mkstemp c uboot_parts_dir boot_cmd
                     chroot_dir boot_dir boot_script boot_device_or_file w
    = (Raise (ValueError msg), w')
    /\ calls w'
       = (calls w
          ++ loader_calls c chroot_dir boot_dir boot_device_or_file mlo)%list
    /\ written w' = written w /\ at_exit w' = at_exit w
    /\ classes w' = classes w.
Proof.
  intros Hc Hexit Hmlo Hk.
  destruct c; try (exfalso; apply Hc; reflexivity);
    unfold_make_boot_files;
    repeat run_step Hexit Hmlo Hk Hk;
    match goal with
    | |- context [bind (make_uImage ?g ?e ?l ?d ?s ?b) ?k ?w1] =>
        destruct (make_uImage_fail g e l d s b w1 (Hk _)) as (msg & E);
        rewrite (bind_raise _ _ _ _ _ E)
    end;
    exists msg; eexists; (split; [reflexivity |]);
    unfold after, loader_calls; cbn; rewrite ?app_nil_r;
    repeat split; reflexivity.
Qed.

Lemma _make_boot_files_no_kernel_witness :
  exists msg w',
    _make_boot_files (fun _ _ => []) example_exit_status example_mkstemp
                     Mx51evkConfig "/parts" "boot" "/chroot" "/boot"
                     "/boot/boot.scr" "/dev/sdb" start
    = (Raise (ValueError msg), w')
    /\ calls w'
       = (calls start
          ++ loader_calls Mx51evkConfig "/chroot" "/boot" "/dev/sdb" "")%list
    /\ written w' = written start /\ at_exit w' = at_exit start
    /\ classes w' = classes start.
Proof.
  apply (_make_boot_files_no_kernel (fun _ _ => []) example_exit_status
           example_mkstemp Mx51evkConfig "/parts" "boot" "/chroot" "/boot"
           "/boot/boot.scr" "/dev/sdb" "" start).
  - discriminate.
  - reflexivity.
  - intros H. discriminate H.
  - intros h. cbn. lia.
Defined.

(** * Properties of the mocks *)

Module FixturesFacts.

Import Fixtures.

Section Mocks.

Variable V : Type.








Lemma callable_run_calls (self : MockCallableWithPositionalArgs V)
  (invocations : list (list V)) :
  invocations <> [] ->
  callable_run V self invocations
  = mkCallable V
      (Some (match callable_calls V self with
             | None => []
             | Some l => l
             end ++ invocations)%list)
      (return_value V self).
Proof.
  revert self. induction invocations as [| i rest IH]; intros self Hne;
    [now contradiction Hne |].
  unfold callable_run. cbn [fold_left].
  destruct rest as [| j rest'].
  - reflexivity.
  - change (fold_left _ (j :: rest') ?s) with (callable_run V s (j :: rest')).
    rewrite IH by discriminate.
    unfold MockCallableWithPositionalArgs__call__.
    cbn [fst callable_calls return_value].
    rewrite <- app_assoc. reflexivity.
Qed.

(** X18: a [MockCallableWithPositionalArgs] holds no list of calls until it
    is called; after any number of calls, at least one, it holds the
    positional arguments of each call in the order of the calls, and it has
    returned its [return_value] every time and still has it. *)
Theorem mock_callable_records (self : MockCallableWithPositionalArgs V)
  (invocations : list (list V)) :
  callable_calls V (MockCallableWithPositionalArgs_new V) = None
  /\ (forall args,
         snd (MockCallableWithPositionalArgs__call__ V self args)
         = return_value V self)
  /\ (callable_calls V self = None ->
      invocations <> [] ->
      callable_calls V (callable_run V self invocations) = Some invocations
      /\ return_value V (callable_run V self invocations)
         = return_value V self).
Proof.
  split; [reflexivity |]. split; [reflexivity |].
  intros Hnone Hne. rewrite (callable_run_calls _ _ Hne), Hnone.
  split; reflexivity.
Qed.

End Mocks.




Lemma mock_callable_records_witness :
  callable_calls string
    (callable_run string (mkCallable string None (Some "out"))
       [["sfdisk"; "-l"]; ["63,,,*"]])
  = Some [["sfdisk"; "-l"]; ["63,,,*"]]
  /\ return_value string
       (callable_run string (mkCallable string None (Some "out"))
          [["sfdisk"; "-l"]; ["63,,,*"]])
     = Some "out".
Proof.
  apply (proj2 (proj2 (mock_callable_records string
                         (mkCallable string None (Some "out"))
                         [["sfdisk"; "-l"]; ["63,,,*"]])));
    [reflexivity | discriminate].
Defined.

End FixturesFacts.

(** * Further properties of the boards, continued *)

(** X19: [make_boot_script] writes the boot command to the temporary file
    it is handed, having registered that file for deletion at exit, and runs
    [mkimage] as root to compile that file into [boot_script], with the
    image type [script] and the address 0; the file is written and
    registered whether [mkimage] succeeds or not, and the classes stay as
    they are. *)
Theorem make_boot_script_effects
  (exit_status : list call -> call -> Z)
  (mkstemp : list (string * string) -> string)
  (boot_script_data boot_script : string) (w : world) :
  let tmpfile := mkstemp (written w) in
  let run := make_boot_script exit_status mkstemp boot_script_data
                              boot_script w in
  written (snd run) = (written w ++ [(tmpfile, boot_script_data)])%list
  /\ at_exit (snd run) = (at_exit w ++ [tmpfile])%list
  /\ calls (snd run)
     = (calls w
        ++ [mkimage_call "script" (VStr "0") (VStr "0") "boot script"
                         tmpfile boot_script])%list
  /\ classes (snd run) = classes w
  /\ (exit_status (calls w)
        (mkimage_call "script" (VStr "0") (VStr "0") "boot script" tmpfile
                      boot_script) = 0 ->
      fst run = Ok 0).
Proof.
  cbv zeta.
  unfold make_boot_script, tempfile_mkstemp, atexit_register_unlink,
    write_file, _run_mkimage, bind, cmd_runner_run, proc_wait, ret, raise.
  cbn [calls written at_exit classes].
  change (mkCall [VStr "mkimage"; VStr "-A"; VStr "arm"; VStr "-O";
                  VStr "linux"; VStr "-T"; VStr "script"; VStr "-C";
                  VStr "none"; VStr "-a"; VStr "0"; VStr "-e"; VStr "0";
                  VStr "-n"; VStr "boot script"; VStr "-d";
                  VStr (mkstemp (written w)); VStr boot_script] true)
    with (mkimage_call "script" (VStr "0") (VStr "0") "boot script"
                       (mkstemp (written w)) boot_script).
  destruct (exit_status (calls w) _ =? 0) eqn:E; cbn [fst snd calls written
    at_exit classes]; repeat split; intros H.
  - now rewrite H.
  - rewrite H in E. cbn in E. discriminate E.
Qed.

Lemma make_boot_script_effects_witness :
  let run := make_boot_script example_exit_status example_mkstemp "boot"
                              "/boot/boot.scr" start in
  written (snd run) = [("/tmp/tmpAbCdEf", "boot")]
  /\ at_exit (snd run) = ["/tmp/tmpAbCdEf"]
  /\ calls (snd run)
     = [mkimage_call "script" (VStr "0") (VStr "0") "boot script"
                     "/tmp/tmpAbCdEf" "/boot/boot.scr"]
  /\ classes (snd run) = classes start
  /\ (example_exit_status (calls start)
        (mkimage_call "script" (VStr "0") (VStr "0") "boot script"
                      "/tmp/tmpAbCdEf" "/boot/boot.scr") = 0 ->
      fst run = Ok 0).
Proof.
  apply (make_boot_script_effects example_exit_status example_mkstemp "boot"
           "/boot/boot.scr" start).
Defined.

(** X20: for every board of [board_configs] the directive of
    [get_sfdisk_cmd] has [mmc_part_offset] lines, then the one bootable
    line, then the line of the root partition, and the partition number in
    [mmc_option], from which the boot command loads the kernel and the
    initrd, is the number of the bootable partition: [mmc_part_offset + 1]. *)
Theorem board_configs_boot_partition (name : string) (c : cls) :
  In (name, c) board_configs ->
  exists slot offset cmd,
    getattr c mmc_part_offset = Ok (VInt offset)
    /\ 0 <= offset
    /\ getattr c mmc_option = Ok (VStr (slot ++ ":" ++ str_int (offset + 1)))
    /\ get_sfdisk_cmd c = Ok cmd
    /\ map is_bootable_line (splitlines cmd)
       = (repeat false (Z.to_nat offset) ++ [true; false])%list
    /\ nth_error (splitlines cmd) (Z.to_nat offset + 1) = Some root_line.
Proof.
  cbn [board_configs In]. intros H.
  repeat (destruct H as [[= <- <-] | H];
          [first [ exists "0", 0; eexists; repeat split; discriminate
                 | exists "1", 0; eexists; repeat split; discriminate
                 | exists "0", 1; eexists; repeat split; discriminate ] |]).
  destruct H.
Qed.

Lemma board_configs_boot_partition_witness :
  exists slot offset cmd,
    getattr Mx51evkConfig mmc_part_offset = Ok (VInt offset)
    /\ 0 <= offset
    /\ getattr Mx51evkConfig mmc_option
       = Ok (VStr (slot ++ ":" ++ str_int (offset + 1)))
    /\ get_sfdisk_cmd Mx51evkConfig = Ok cmd
    /\ map is_bootable_line (splitlines cmd)
       = (repeat false (Z.to_nat offset) ++ [true; false])%list
    /\ nth_error (splitlines cmd) (Z.to_nat offset + 1) = Some root_line.
Proof.
  apply (board_configs_boot_partition "mx51evk" Mx51evkConfig).
  cbn [board_configs In]. tauto.
Defined.

(** X21: for a live system an empty list of consoles is not what no list
    is: when [_get_boot_cmd] returns for the empty list, it returns for no
    list too, and the boot arguments for the empty list are those for no
    list with [ serialtty=<serial_tty>] put in front. *)
Theorem _get_boot_cmd_live_empty_consoles (st : class_state) (c : cls)
  (is_lowmem : bool) (rootfs_uuid s : string) :
  _get_boot_cmd st c true is_lowmem (Some []) rootfs_uuid = Ok s ->
  exists tty bootargs,
    get_serial_tty st c = Ok tty
    /\ _get_boot_cmd st c true is_lowmem None rootfs_uuid
       = Ok (join nl [bootcmd_line c; bootargs_line bootargs; "boot"])
    /\ s = join nl [bootcmd_line c;
                    bootargs_line (" serialtty=" ++ str tty ++ bootargs);
                    "boot"].
Proof.
  intros H.
  destruct (_get_boot_cmd_reads _ _ _ _ _ _ _ H)
    as (tty & extra_serial & live_serial & Htty & Hextra & Hlive).
  specialize (Htty eq_refl ltac:(discriminate)).
  rewrite (_get_boot_cmd_text st c true is_lowmem (Some []) rootfs_uuid
             tty extra_serial live_serial (fun _ _ => Htty) Hextra Hlive)
    in H.
  exists tty, (code_bootargs c tty extra_serial live_serial true is_lowmem
                 None rootfs_uuid).
  split; [exact Htty |]. split.
  - apply (_get_boot_cmd_text st c true is_lowmem None rootfs_uuid tty
             extra_serial live_serial (fun _ _ => Htty) Hextra Hlive).
  - assert (Hargs : code_bootargs c tty extra_serial live_serial true
                                  is_lowmem (Some []) rootfs_uuid
                    = " serialtty=" ++ str tty
                      ++ code_bootargs c tty extra_serial live_serial true
                                       is_lowmem None rootfs_uuid).
    { unfold code_bootargs, console_tokens. cbn [map List.app join].
      rewrite !append_assoc. reflexivity. }
    rewrite Hargs in H. congruence.
Qed.

Lemma _get_boot_cmd_live_empty_consoles_witness :
  exists tty bootargs,
    get_serial_tty loaded Ux500Config = Ok tty
    /\ _get_boot_cmd loaded Ux500Config true false None "deadbeef"
       = Ok (join nl [bootcmd_line Ux500Config; bootargs_line bootargs;
                      "boot"])
    /\ match _get_boot_cmd loaded Ux500Config true false (Some [])
                           "deadbeef" with
       | Ok s => s
       | Raise _ => ""
       end
       = join nl [bootcmd_line Ux500Config;
                  bootargs_line (" serialtty=" ++ str tty ++ bootargs);
                  "boot"].
Proof.
  apply (_get_boot_cmd_live_empty_consoles loaded Ux500Config false
           "deadbeef").
  reflexivity.
Defined.
